(** * WhisperLive: [whisper_live/text_processing.py]

    A shallow embedding of the class [TranscriptProcessor] and a
    verification of its summarisation and title-generation methods.

    - Python [str] values are [string]s (one [ascii] per character), [len]
      is [String.length] seen as a [Z].
    - Python [int] values are [Z]; Python [float] values are IEEE 754
      binary64 numbers, given by [spec_float] with the operations of
      [SpecFloat] at precision 53 and maximal exponent 1024.
    - The dictionary [self.models] is a [gmap]; its one-key values
      [{"context": n}] are records.
    - The remote chat-completion service, the console and the file
      [summary.md] form the [world] threaded through a state-and-exception
      monad. *)

From Stdlib Require Import ZArith Lia List Ascii String.
From Stdlib Require Import Floats.SpecFloat.
From stdpp Require Import base gmap strings.
Import ListNotations.

Local Open Scope string_scope.
Local Open Scope list_scope.
Local Open Scope Z_scope.

(* ===================================================================== *)
(** * Part I: definitions                                                 *)
(* ===================================================================== *)

(** ** Python strings *)

Module PyStr.

(** [len(s)] *)
Definition len (s : string) : Z := Z.of_nat (String.length s).

(** [s.split(sep)] for a separator of one character: the pieces between
    consecutive separators, the separators themselves left out.  The
    result is never empty: a string without separator is its only piece. *)
Fixpoint split (sep : ascii) (s : string) : list string :=
  match s with
  | EmptyString => [EmptyString]
  | String c rest =>
      if Ascii.eqb c sep then EmptyString :: split sep rest
      else match split sep rest with
           | [] => [String c EmptyString]
           | piece :: pieces => String c piece :: pieces
           end
  end.

(** [sep.join(pieces)] *)
Definition join (sep : string) (pieces : list string) : string :=
  String.concat sep pieces.

(** [s.replace(old, new)] for [old] of one character. *)
Fixpoint replace (old : ascii) (new : string) (s : string) : string :=
  match s with
  | EmptyString => EmptyString
  | String c rest =>
      if Ascii.eqb c old then new ++ replace old new rest
      else String c (replace old new rest)
  end.

(** The first [n] characters of [s], all of [s] when it is shorter. *)
Fixpoint take (n : nat) (s : string) : string :=
  match n, s with
  | S n', String c rest => String c (take n' rest)
  | _, _ => EmptyString
  end.

(** [s[:stop]]: a negative [stop] counts from the end of the string, and
    indices outside the string are clipped to it. *)
Definition slice_to (s : string) (stop : Z) : string :=
  if stop <? 0 then take (Z.to_nat (Z.max 0 (len s + stop))) s
  else take (Z.to_nat stop) s.

(** [c * n] for a character [c]: used to write down long inputs. *)
Fixpoint repeat (c : ascii) (n : nat) : string :=
  match n with
  | O => EmptyString
  | S n' => String c (repeat c n')
  end.

End PyStr.

Definition dot : ascii := ".".
Definition dquote : ascii := "034".
Definition space : ascii := " ".
Definition underscore : ascii := "_".
Definition newline : ascii := "010".

(** ** Python exceptions *)

Inductive exn : Type :=
| KeyError (key : string)
| OverflowError
| TypeError
| AttributeError
| RemoteFailure (what : string).

(** [KeyError]: a dictionary has no such key.  [OverflowError]: an [int] is
    too large to convert to [float].  [TypeError]: [None] where a [str] is
    required, in [f.write] or in [join].  [AttributeError]: a method of
    [str] called on [None].  [RemoteFailure]: whatever lines 39-48 raise,
    the OpenAI client or the access to [choices[0].message]. *)

(** ** Python values that are a [str] or [None] *)

Inductive pyval : Type :=
| PyNone
| PyStr (s : string).

(** The strings of a list, when all its items are strings. *)
Fixpoint strings_of (items : list pyval) : option (list string) :=
  match items with
  | [] => Some []
  | PyStr s :: items' =>
      match strings_of items' with
      | Some l => Some (s :: l)
      | None => None
      end
  | PyNone :: _ => None
  end.

(** [sep.join(items)]: [TypeError] when an item is not a [str]. *)
Definition join_items (sep : string) (items : list pyval) : exn + string :=
  match strings_of items with
  | Some l => inr (PyStr.join sep l)
  | None => inl TypeError
  end.

(** ** Python floats and their mixed arithmetic with ints *)

Module PyFloat.

Definition prec : Z := 53.
Definition emax : Z := 1024.

Definition float : Type := spec_float.

(** The literals [0.6] and [0.8]: the doubles nearest to 6/10 and 8/10. *)
Definition lit_0_6 : float := S754_finite false 5404319552844595 (-53).
Definition lit_0_8 : float := S754_finite false 7205759403792794 (-53).

(** [float(n)]: the nearest double, ties to even; [OverflowError] when it
    is out of range. *)
Definition of_int (n : Z) : exn + float :=
  match binary_normalize prec emax n 0 false with
  | S754_infinity _ => inl OverflowError
  | S754_nan => inl OverflowError
  | f => inr f
  end.

(** [n * f] with [n : int] and [f : float]: [n] is converted, then the
    doubles are multiplied. *)
Definition int_mul (n : Z) (f : float) : exn + float :=
  match of_int n with
  | inl e => inl e
  | inr x => inr (SFmul prec emax x f)
  end.

(** Comparison of a float with an int. Python compares the two
    mathematical values, without rounding the int: [None] for NaN. *)
Definition compare_int (f : float) (n : Z) : option comparison :=
  match f with
  | S754_nan => None
  | S754_infinity s => Some (if s then Lt else Gt)
  | S754_zero _ => Some (0 ?= n)
  | S754_finite s m e =>
      let z := cond_Zopp s (Z.pos m) in
      Some (if 0 <=? e then (z * 2 ^ e ?= n) else (z ?= n * 2 ^ (- e)))
  end.

(** [n < f] *)
Definition int_lt (n : Z) (f : float) : bool :=
  match compare_int f n with
  | Some Gt => true
  | _ => false
  end.

(** [n > f] *)
Definition int_gt (n : Z) (f : float) : bool :=
  match compare_int f n with
  | Some Lt => true
  | _ => false
  end.

End PyFloat.

(** ** Shifting a mantissa right

    [shifted M k mrs]: the record [mrs] is [M] shifted right by [k] digits,
    [shr_r] being the last digit shifted out and [shr_s] telling whether
    anything but zeros was shifted out before it. *)

Definition shifted (M : Z) (k : Z) (mrs : shr_record) : Prop :=
  exists low,
    M = shr_m mrs * 2 ^ k + Z.b2z (shr_r mrs) * 2 ^ (k - 1) + low /\
    0 <= low < 2 ^ (k - 1) /\
    (shr_s mrs = false <-> low = 0) /\ 0 <= shr_m mrs.

(** ** The world outside the process *)

(** One request to the chat-completion endpoint: the credential of the
    client, the model addressed, and the two messages. *)
Record request : Type := Request {
  rq_api_key : option string;
  rq_model : string;
  rq_system : string;
  rq_user : string
}.

(** What one round trip gives back: [inl] the failure raised, or [inr]
    the value of [completion.choices[0].message.content], which is a
    [str], or [None] when the answer carries no content. *)
Definition response : Type := (string + pyval)%type.

Definition exchange : Type := (request * response)%type.

Definition succeeded (x : exchange) : Prop :=
  match snd x with inl _ => False | inr _ => True end.

(** Lines printed by the program, kept as structured values:
    ["Chunk {i} has {n} characters."], ["Summarizing part {i}"] and
    [print(summaries)]. *)
Inductive notice : Type :=
| ChunkSize (i : nat) (n : Z)
| SummarizingPart (i : nat)
| PartialSummaries (l : list pyval).

(** The remote calls made and the lines printed, oldest first, and the
    content of [summary.md] if the file exists. *)
Record world : Type := World {
  exchanges : list exchange;
  stdout : list notice;
  summary_md : option string
}.

Definition fresh_world : world :=
  {| exchanges := []; stdout := []; summary_md := None |}.

(** ** Computations with effects and exceptions *)

Inductive outcome (A : Type) : Type :=
| Returned (a : A)
| Raised (e : exn).
Arguments Returned {A} a.
Arguments Raised {A} e.

Definition M (A : Type) : Type := world -> outcome A * world.

Definition ret {A} (a : A) : M A := fun w => (Returned a, w).

Definition raise {A} (e : exn) : M A := fun w => (Raised e, w).

Definition bind {A B} (c : M A) (k : A -> M B) : M B :=
  fun w =>
    match c w with
    | (Returned a, w') => k a w'
    | (Raised e, w') => (Raised e, w')
    end.

Declare Scope py_scope.
Delimit Scope py_scope with py.
Notation "x <- c ;; k" := (bind c (fun x => k))
  (at level 100, c at next level, right associativity) : py_scope.
Notation "c ;; k" := (bind c (fun _ => k))
  (at level 100, right associativity) : py_scope.
Local Open Scope py_scope.

(** A pure computation that may raise. *)
Definition lift {A} (x : exn + A) : M A :=
  match x with
  | inl e => raise e
  | inr a => ret a
  end.

(** [for x in l: body], threading the loop variables [acc]. *)
Fixpoint for_each {A S} (l : list A) (body : S -> A -> M S) (acc : S) : M S :=
  match l with
  | [] => ret acc
  | x :: l' => (acc' <- body acc x ;; for_each l' body acc')
  end.

(** [enumerate(l, start)] *)
Fixpoint enumerate {A} (start : nat) (l : list A) : list (nat * A) :=
  match l with
  | [] => []
  | x :: l' => (start, x) :: enumerate (S start) l'
  end.

(** [print] *)
Definition print (n : notice) : M unit :=
  fun w => (Returned tt,
            {| exchanges := exchanges w;
               stdout := stdout w ++ [n];
               summary_md := summary_md w |}).

(** [with open("summary.md", "w") as f: f.write(summary)]: opening the
    file empties it; writing [None] then raises [TypeError] and leaves it
    empty.  The file system is taken to accept the file: [open] and the
    write of a [str] do not raise. *)
Definition write_summary_md (summary : pyval) : M unit :=
  fun w =>
    match summary with
    | PyStr text =>
        (Returned tt,
         {| exchanges := exchanges w;
            stdout := stdout w;
            summary_md := Some text |})
    | PyNone =>
        (Raised TypeError,
         {| exchanges := exchanges w;
            stdout := stdout w;
            summary_md := Some EmptyString |})
    end.

(** ** class TranscriptProcessor *)

Record model_profile : Type := Profile { context : Z }.

Record instruction_set : Type := Instructions {
  summarize : string;
  fix_summary : string
}.

Record TranscriptProcessor : Type := Processor {
  openai_api_key : option string;
  models : gmap string model_profile;
  instructions : instruction_set
}.

Definition default_model : string := "gpt-3.5-turbo-0125".
Definition default_head : Z := 1000.

Definition summarize_instructions : string :=
  "You will be given a text that represents a lesson transcript.
        The main speaker does 90% of the talking. Sometimes others will ask questions and he will answer them.
        Please format everything in markdown. Create sections based on the topic that is being talked about.
        Be detailed, incorporate main ideas and essential information, eliminating extraneous language and focusing on critical aspects.
        Rely strictly on the provided text, without including external information.
        Take notes from the perspective of a listener. Use bullet points for main ideas. 
        Note should represent concrete advice that is being given.".

Definition fix_summary_instructions : string :=
  "You will be given summary that is made out of multiple notes. 
        Please create one note out of it. Don't leave anything out unless it's already mentioned multiple times.
        Don't add any extra content.
        Fix the section names so that they don't repeat.".

Definition name_instructions : string :=
  "You will be given part of a larger text, please provide the name that is 3-5 words long that reflects the text content.".

(** [__init__]; [getenv] is what [os.getenv("openai_api")] gave. *)
Definition init (getenv : option string) : TranscriptProcessor :=
  {| openai_api_key := getenv;
     models := <[ "gpt-4-0125-preview" := Profile 128000 ]>
               (<[ "gpt-3.5-turbo-0125" := Profile 16385 ]> ∅);
     instructions := {| summarize := summarize_instructions;
                        fix_summary := fix_summary_instructions |} |}.

(** [d[key]] *)
Definition getitem {V} (d : gmap string V) (key : string) : exn + V :=
  match d !! key with
  | Some v => inr v
  | None => inl (KeyError key)
  end.

(** The loop variables of the chunking loop. *)
Record chunker : Type := Chunker {
  chunks : list string;
  current_chunk : list string;
  current_chunk_length : Z
}.

Definition empty_chunker : chunker :=
  {| chunks := []; current_chunk := []; current_chunk_length := 0 |}.

(** The body of [for sentence in sentences] (lines 69-76). *)
Definition chunk_sentence (context_length : Z) (st : chunker) (sentence : string)
  : exn + chunker :=
  match PyFloat.int_mul context_length PyFloat.lit_0_8 with
  | inl e => inl e
  | inr limit =>
      if PyFloat.int_gt (current_chunk_length st) limit then
        inr {| chunks := chunks st ++ [PyStr.join "." (current_chunk st)];
               current_chunk := [];
               current_chunk_length := 0 |}
      else
        inr {| chunks := chunks st;
               current_chunk := current_chunk st ++ [sentence];
               current_chunk_length := current_chunk_length st + PyStr.len sentence |}
  end.

(** Lines 77-79: the last chunk is appended if it has content. *)
Definition flush (st : chunker) : list string :=
  match current_chunk st with
  | [] => chunks st
  | _ :: _ => chunks st ++ [PyStr.join "." (current_chunk st)]
  end.

(** Lines 64-79: the chunks of a transcript. *)
Definition make_chunks (context_length : Z) (transcript : string) : M (list string) :=
  let sentences := PyStr.split dot transcript in
  st <- for_each sentences
          (fun st sentence => lift (chunk_sentence context_length st sentence))
          empty_chunker ;;
  ret (flush st).

Section Service.

(** The remote service: what it answers to a request, given the exchanges
    so far. *)
Variable service : list exchange -> request -> response.

(** [model_response]: one round trip.  What line 48 returns is the
    content as it came, a [str] or [None]. *)
Definition model_response (self : TranscriptProcessor)
    (instructions prompt model : string) : M pyval :=
  fun w =>
    let rq := {| rq_api_key := openai_api_key self;
                 rq_model := model;
                 rq_system := instructions;
                 rq_user := prompt |} in
    let answer := service (exchanges w) rq in
    let w' := {| exchanges := exchanges w ++ [(rq, answer)];
                 stdout := stdout w;
                 summary_md := summary_md w |} in
    match answer with
    | inl what => (Raised (RemoteFailure what), w')
    | inr content => (Returned content, w')
    end.

(** Line 62: the whole transcript in one call. *)
Definition direct_summary (self : TranscriptProcessor)
    (transcript model : string) : M pyval :=
  model_response self (summarize (instructions self)) transcript model.

(** Lines 84-88: one summary per chunk. *)
Definition summarize_parts (self : TranscriptProcessor) (model : string)
    (chunks : list string) : M (list pyval) :=
  for_each (enumerate 1 chunks)
    (fun summaries '(i, chunk) =>
       print (SummarizingPart i) ;;
       part_summary <- model_response self (summarize (instructions self)) chunk model ;;
       ret (summaries ++ [part_summary]))
    [].

(** Lines 64-93: chunks, their summaries, and the summary of the
    summaries.  The summaries are joined before the last call is made. *)
Definition chunked_summary (self : TranscriptProcessor) (context_length : Z)
    (transcript model : string) : M pyval :=
  chunks <- make_chunks context_length transcript ;;
  for_each (enumerate 0 chunks)
    (fun _ '(i, ch) => print (ChunkSize i (PyStr.len ch))) tt ;;
  summaries <- summarize_parts self model chunks ;;
  print (PartialSummaries summaries) ;;
  joined <- lift (join_items (String newline EmptyString) summaries) ;;
  model_response self (fix_summary (instructions self)) joined model.

(** [summarize_transcript] *)
Definition summarize_transcript (self : TranscriptProcessor)
    (transcript : string) (model : string) : M pyval :=
  profile <- lift (getitem (models self) model) ;;
  let context_length := context profile * 4 in
  threshold <- lift (PyFloat.int_mul context_length PyFloat.lit_0_6) ;;
  summary <-
    (if PyFloat.int_lt (PyStr.len transcript) threshold then
       direct_summary self transcript model
     else
       chunked_summary self context_length transcript model) ;;
  write_summary_md summary ;;
  ret PyNone.

(** The two branches of [summarize_transcript], by the outcome of its
    test. *)
Definition summary_branch (self : TranscriptProcessor) (context_length : Z)
    (transcript model : string) (direct : bool) : M pyval :=
  if direct then direct_summary self transcript model
  else chunked_summary self context_length transcript model.

(** [generate_text_name] *)
Definition generate_text_name (self : TranscriptProcessor)
    (transcript : string) (head : Z) : M pyval :=
  let instructions := name_instructions in
  transcript_name <- model_response self instructions
                       (PyStr.slice_to transcript head) default_model ;;
  match transcript_name with
  | PyStr text =>
      let transcript_name :=
        PyStr.replace space "_" (PyStr.replace dquote EmptyString text) in
      ret (PyStr transcript_name)
  | PyNone => raise AttributeError
  end.

End Service.

(** ** The chunking loop with the chunks kept as lists of sentences

    [grouping] is [chunker] before the sentences of a chunk are joined:
    [closed] holds the sentences of each chunk already appended to
    [chunks].  [erase] forgets the difference, and [chunk_sentence_erase]
    (Part II) shows that the loop of the source is this one seen through
    [erase]. *)

Record grouping : Type := Grouping {
  closed : list (list string);
  pending : list string;
  pending_length : Z
}.

Definition empty_grouping : grouping :=
  {| closed := []; pending := []; pending_length := 0 |}.

Definition group_sentence (limit : PyFloat.float) (g : grouping) (sentence : string)
  : grouping :=
  if PyFloat.int_gt (pending_length g) limit then
    {| closed := closed g ++ [pending g]; pending := []; pending_length := 0 |}
  else
    {| closed := closed g;
       pending := pending g ++ [sentence];
       pending_length := pending_length g + PyStr.len sentence |}.

Definition group_all (limit : PyFloat.float) (sentences : list string) (g : grouping)
  : grouping :=
  fold_left (group_sentence limit) sentences g.

Definition flush_groups (g : grouping) : list (list string) :=
  match pending g with
  | [] => closed g
  | _ :: _ => closed g ++ [pending g]
  end.

(** The sentences of each chunk of a transcript. *)
Definition groups (limit : PyFloat.float) (transcript : string) : list (list string) :=
  flush_groups (group_all limit (PyStr.split dot transcript) empty_grouping).

Definition erase (g : grouping) : chunker :=
  {| chunks := map (PyStr.join ".") (closed g);
     current_chunk := pending g;
     current_chunk_length := pending_length g |}.

(** ** Invariant of the chunking loop *)

(** A chunk whose sentences before the last one did not exceed the limit
    when the last one was appended. *)
Definition bounded_by (limit : PyFloat.float) (group : list string) : Prop :=
  exists body last,
    group = body ++ [last] /\
    PyFloat.int_gt (fold_right (fun sentence n => PyStr.len sentence + n) 0 body) limit
      = false.

(** The count kept is the count of the pending sentences, every chunk
    closed is [bounded_by] the limit, and so is the pending one once it
    has a sentence. *)
Definition tidy (limit : PyFloat.float) (g : grouping) : Prop :=
  pending_length g = fold_right (fun sentence n => PyStr.len sentence + n) 0 (pending g) /\
  Forall (bounded_by limit) (closed g) /\
  (pending g = [] \/ bounded_by limit (pending g)).

(** ** Notions of the specification *)

(** The character count the chunker keeps for a run of sentences. *)
Definition total_len (sentences : list string) : Z :=
  fold_right (fun sentence n => PyStr.len sentence + n) 0 sentences.

(** The sentences of a text: what lies between its periods. *)
Abbreviation sentences_of := (PyStr.split dot) (only parsing).

(** Chunk coverage: the sentences of the chunks, in order, are the
    sentences of the transcript. *)
Definition covers (chunks : list string) (transcript : string) : Prop :=
  concat (map sentences_of chunks) = sentences_of transcript.

(** Title formatting, character by character: a double quote disappears,
    a space becomes an underscore, anything else stays. *)
Definition title_char (c : ascii) : list ascii :=
  if Ascii.eqb c dquote then []
  else if Ascii.eqb c space then [underscore]
  else [c].

Definition title_of (text : string) : string :=
  string_of_list_ascii (flat_map title_char (list_ascii_of_string text)).

(** The chunk size bound: all but the last sentence of the chunk stay
    within eight tenths of the context. *)
Definition within_limit (context_length : Z) (group : list string) : Prop :=
  exists body last,
    group = body ++ [last] /\
    total_len group = total_len body + PyStr.len last /\
    5 * total_len body <= 4 * context_length.

(** A run hands the persisted summary to its caller. *)
Definition yields_persisted (out : outcome pyval) (w : world) : Prop :=
  exists text, out = Returned (PyStr text) /\ summary_md w = Some text.

(** The request [model_response] builds. *)
Definition request_of (self : TranscriptProcessor) (instructions prompt model : string)
  : request :=
  {| rq_api_key := openai_api_key self;
     rq_model := model;
     rq_system := instructions;
     rq_user := prompt |}.

(** The world after some more exchanges. *)
Definition after_exchanges (w : world) (new : list exchange) : world :=
  {| exchanges := exchanges w ++ new; stdout := stdout w; summary_md := summary_md w |}.

(** ** Inputs used below *)

(** A service that answers its [k]-th call with the [k]-th of [answers]. *)
Definition canned_service (answers : list response) : list exchange -> request -> response :=
  fun history _ => nth (List.length history) answers (inr (PyStr EmptyString)).

(** A processor whose table has been given a model of two tokens: eight
    characters of context. *)
Definition pocket_processor : TranscriptProcessor :=
  {| openai_api_key := Some "sk-test";
     models := <[ "pocket" := Profile 2 ]> (models (init None));
     instructions := instructions (init None) |}.

(** A sentence of 52433 characters, then two short ones: 52437
    characters. *)
Definition first_sentence : string := PyStr.repeat "a" (Z.to_nat 52433).

Definition long_transcript : string := first_sentence ++ ".b.c".

Definition said_go_fast : string :=
  "He said " ++ String dquote ("Go Fast" ++ String dquote EmptyString).

(** ** Shapes of runs *)

(** The remote calls of a run, against its outcome: a run that returns
    has seen every call answered; a run that raises has seen every call
    answered, or every call but the last, whose failure it raises. *)
Definition orderly {A} (out : outcome A) (new : list exchange) : Prop :=
  match out with
  | Returned _ => Forall succeeded new
  | Raised e =>
      Forall succeeded new \/
      exists earlier rq what,
        new = earlier ++ [(rq, inl what)] /\ Forall succeeded earlier /\
        e = RemoteFailure what
  end.

(** A computation that leaves [summary.md] alone and whose remote calls
    are [orderly]. *)
Definition quiet {A} (c : M A) : Prop :=
  forall w, exists new,
    exchanges (snd (c w)) = exchanges w ++ new /\
    summary_md (snd (c w)) = summary_md w /\
    orderly (fst (c w)) new.

(** A computation that returns what its last remote call answered. *)
Definition concluding (c : M pyval) : Prop :=
  forall w content w',
    c w = (Returned content, w') ->
    exists earlier rq, exchanges w' = exchanges w ++ earlier ++ [(rq, inr content)].

(** The exchanges of the chunk-summarising loop: one request per chunk,
    each with its answer. *)
Definition part_exchanges (self : TranscriptProcessor) (model : string)
    (chunks summaries : list string) : list exchange :=
  map (fun '(chunk, part_summary) =>
         (request_of self (summarize (instructions self)) chunk model,
          inr (PyStr part_summary)))
      (combine chunks summaries).

(** The same, for answers that are a [str] or [None]. *)
Definition part_answers (self : TranscriptProcessor) (model : string)
    (chunks : list string) (answers : list pyval) : list exchange :=
  map (fun '(chunk, answer) =>
         (request_of self (summarize (instructions self)) chunk model, inr answer))
      (combine chunks answers).


(** ** Further notions *)

(** [piece] occurs in [text] as a run of consecutive characters. *)
Definition substring (piece text : string) : Prop :=
  exists before after, text = (before ++ piece ++ after)%string.

(** A computation all of whose remote calls carry a request that
    satisfies [P]. *)
Definition calls_all {A} (P : request -> Prop) (c : M A) : Prop :=
  forall w, exists new,
    exchanges (snd (c w)) = exchanges w ++ new /\
    Forall (fun x => P (fst x)) new.

(** The lines the two loops over the chunks print. *)
Definition size_notices (start : nat) (chunks : list string) : list notice :=
  map (fun '(i, ch) => ChunkSize i (PyStr.len ch)) (enumerate start chunks).

Definition part_notices (start : nat) (chunks : list string) : list notice :=
  map (fun '(i, _) => SummarizingPart i) (enumerate start chunks).

(** The number of groups [flush_groups] gives. *)
Definition group_count (g : grouping) : nat :=
  List.length (closed g) + match pending g with [] => 0 | _ :: _ => 1 end.

(** Every chunk closed, and the pending one, is a run of consecutive
    sentences among those [seen] so far. *)
Definition in_runs (seen : list string) (g : grouping) : Prop :=
  Forall (fun group => exists before after, seen = before ++ group ++ after) (closed g) /\
  exists before, seen = before ++ pending g.

(** A request as [summarize_transcript] makes them: with the credential
    of the processor, to the model asked for, under one of the two
    instructions. *)
Definition summarize_request (self : TranscriptProcessor) (model : string)
    (rq : request) : Prop :=
  rq_api_key rq = openai_api_key self /\
  rq_model rq = model /\
  (rq_system rq = summarize (instructions self) \/
   rq_system rq = fix_summary (instructions self)).

(* ===================================================================== *)
(** * Part II: properties                                                 *)
(* ===================================================================== *)

(** ** Strings *)

Lemma take_length (n : nat) (s : string) :
  String.length (PyStr.take n s) = Nat.min n (String.length s).
Proof.
  revert s; induction n as [|n IH]; intros [|c s]; simpl; try reflexivity.
  now rewrite IH.
Qed.

Lemma take_prefix (n : nat) (s : string) :
  exists rest, s = (PyStr.take n s ++ rest)%string.
Proof.
  revert s; induction n as [|n IH]; intros s.
  - exists s. now destruct s.
  - destruct s as [|c s]; simpl.
    + now exists EmptyString.
    + destruct (IH s) as [rest Hrest]. exists rest.
      change (String c s = String c (PyStr.take n s ++ rest)%string).
      now rewrite <- Hrest.
Qed.

Lemma take_all (n : nat) (s : string) :
  (String.length s <= n)%nat -> PyStr.take n s = s.
Proof.
  revert s; induction n as [|n IH]; intros [|c s] Hle; simpl in *;
    try reflexivity; try lia.
  rewrite IH; [reflexivity | lia].
Qed.

Lemma slice_to_nonneg (s : string) (stop : Z) :
  0 <= stop -> PyStr.slice_to s stop = PyStr.take (Z.to_nat stop) s.
Proof.
  intros Hstop. unfold PyStr.slice_to.
  destruct (Z.ltb_spec stop 0); [lia | reflexivity].
Qed.

(** The two passes of [replace] are one pass of [title_char]. *)
Lemma replace_title (text : string) :
  PyStr.replace space "_" (PyStr.replace dquote EmptyString text) = title_of text.
Proof.
  unfold title_of.
  induction text as [|c text IH]; simpl; [reflexivity |].
  unfold title_char at 1.
  destruct (Ascii.eqb c dquote) eqn:Hq.
  - exact IH.
  - simpl. destruct (Ascii.eqb c space) eqn:Hs; rewrite IH; reflexivity.
Qed.

Lemma title_of_clean (text : string) (c : ascii) :
  In c (list_ascii_of_string (title_of text)) -> c <> dquote /\ c <> space.
Proof.
  unfold title_of. rewrite list_ascii_of_string_of_list_ascii.
  rewrite in_flat_map. intros (c0 & _ & Hc0).
  unfold title_char in Hc0.
  destruct (Ascii.eqb_spec c0 dquote) as [|Hq]; [contradiction |].
  destruct (Ascii.eqb_spec c0 space) as [|Hs]; simpl in Hc0.
  - destruct Hc0 as [<- | []]. split; discriminate.
  - destruct Hc0 as [<- | []]. now split.
Qed.

(** ** Floats: what [n < c * 0.6] and [n > c * 0.8] compute

    The doubles [c * 0.6] and [c * 0.8] are followed through
    [binary_round_aux]: the product of the mantissas is shifted right,
    rounded to nearest even, and compared with an int exactly. *)

Example lit_0_6_nearest :
  SFdiv 53 1024 (S754_finite false 6 0) (S754_finite false 10 0) = PyFloat.lit_0_6.
Proof. reflexivity. Qed.

Example lit_0_8_nearest :
  SFdiv 53 1024 (S754_finite false 8 0) (S754_finite false 10 0) = PyFloat.lit_0_8.
Proof. reflexivity. Qed.

Lemma digits2_pos_log2 (p : positive) :
  Z.pos (digits2_pos p) = Z.log2 (Z.pos p) + 1.
Proof.
  induction p as [p IH | p IH |]; simpl digits2_pos.
  - rewrite Pos2Z.inj_succ, IH.
    rewrite Pos2Z.inj_xI, Z.log2_succ_double by lia. lia.
  - rewrite Pos2Z.inj_succ, IH.
    rewrite Pos2Z.inj_xO, Z.log2_double by lia. lia.
  - reflexivity.
Qed.

Lemma digits2_pos_bounds (p : positive) :
  2 ^ (Z.pos (digits2_pos p) - 1) <= Z.pos p < 2 ^ Z.pos (digits2_pos p).
Proof.
  rewrite digits2_pos_log2.
  replace (Z.log2 (Z.pos p) + 1 - 1) with (Z.log2 (Z.pos p)) by lia.
  replace (Z.log2 (Z.pos p) + 1) with (Z.succ (Z.log2 (Z.pos p))) by lia.
  apply Z.log2_spec. lia.
Qed.

Lemma digits2_pos_unique (p : positive) (d : Z) :
  2 ^ (d - 1) <= Z.pos p < 2 ^ d -> Z.pos (digits2_pos p) = d.
Proof.
  intros Hd. rewrite digits2_pos_log2.
  assert (0 < d).
  { destruct (Z.ltb_spec 0 d) as [|Hle]; [assumption |].
    destruct Hd as [_ Hd]. 
    assert (2 ^ d <= 1).
    { destruct (Z.eq_dec d 0) as [-> | ]; [simpl; lia |].
      rewrite Z.pow_neg_r by lia. lia. }
    lia. }
  rewrite (Z.log2_unique (Z.pos p) (d - 1)); [lia | lia |].
  replace (Z.succ (d - 1)) with d by lia. exact Hd.
Qed.

Lemma iter_pos_iter {A} (f : A -> A) (p : positive) (x : A) :
  SpecFloat.iter_pos f p x = BinPos.Pos.iter f x p.
Proof.
  revert x. induction p as [p IH | p IH |]; intros x; simpl.
  - rewrite !IH. now rewrite <- !BinPos.Pos.iter_swap.
  - now rewrite !IH.
  - reflexivity.
Qed.

Lemma iter_pos_succ {A} (f : A -> A) (p : positive) (x : A) :
  SpecFloat.iter_pos f (Pos.succ p) x = f (SpecFloat.iter_pos f p x).
Proof. rewrite !iter_pos_iter. apply BinPos.Pos.iter_succ. Qed.

Lemma iter_xO (p k : positive) :
  Z.pos (BinPos.Pos.iter xO p k) = Z.pos p * 2 ^ Z.pos k.
Proof.
  induction k as [|k IH] using Pos.peano_ind.
  - simpl. lia.
  - rewrite BinPos.Pos.iter_succ, Pos2Z.inj_xO, IH, Pos2Z.inj_succ, Z.pow_succ_r by lia. lia.
Qed.

Lemma shr_1_arith (m : Z) :
  0 <= m ->
  forall r s, exists m' r',
    shr_1 {| shr_m := m; shr_r := r; shr_s := s |} =
      {| shr_m := m'; shr_r := r'; shr_s := (r || s)%bool |} /\
    m = 2 * m' + Z.b2z r' /\ 0 <= m'.
Proof.
  intros Hm r s.
  destruct m as [|[p|p|]|p]; simpl.
  - exists 0, false. repeat split; lia.
  - exists (Z.pos p), true. repeat split; simpl; lia.
  - exists (Z.pos p), false. repeat split; simpl; lia.
  - exists 0, true. repeat split; simpl; lia.
  - lia.
Qed.

Lemma shr_1_shifted (M k : Z) (mrs : shr_record) :
  1 <= k -> shifted M k mrs -> shifted M (k + 1) (shr_1 mrs).
Proof.
  intros Hk (low & HM & Hlow & Hs & Hm).
  destruct mrs as [m r s]. cbn [shr_m shr_r shr_s] in *.
  destruct (shr_1_arith m Hm r s) as (m' & r' & -> & Hm' & Hpos).
  unfold shifted. cbn [shr_m shr_r shr_s].
  replace (k + 1 - 1) with k by lia.
  assert (Hpow : 2 ^ (k + 1) = 2 * 2 ^ k) by (rewrite Z.pow_add_r; lia).
  assert (Hpow' : 2 ^ k = 2 * 2 ^ (k - 1)).
  { replace k with (k - 1 + 1) at 1 by lia. rewrite Z.pow_add_r; lia. }
  set (h := 2 ^ (k - 1)) in *. set (P := 2 ^ k) in *. rewrite Hpow.
  exists (Z.b2z r * h + low).
  assert (Hr : Z.b2z r * h = 0 \/ Z.b2z r * h = h) by (destruct r; simpl; lia).
  assert (Hr' : Z.b2z r' * P = 0 \/ Z.b2z r' * P = P) by (destruct r'; simpl; lia).
  split; [| split; [| split]].
  - rewrite HM, Hm'. ring.
  - lia.
  - destruct r; simpl.
    + split; [discriminate | lia].
    + rewrite Hs. lia.
  - exact Hpos.
Qed.

Lemma shifted_first (M : Z) :
  0 <= M -> shifted M 1 (shr_1 {| shr_m := M; shr_r := false; shr_s := false |}).
Proof.
  intros HM.
  destruct (shr_1_arith M HM false false) as (m' & r' & -> & Hm' & Hpos).
  unfold shifted. exists 0. cbn [shr_m shr_r shr_s]. simpl.
  repeat split; try lia.
Qed.

Lemma iter_shr_1_shifted (M : Z) (p : positive) :
  0 <= M ->
  shifted M (Z.pos p)
    (SpecFloat.iter_pos shr_1 p {| shr_m := M; shr_r := false; shr_s := false |}).
Proof.
  intros HM. induction p as [|p IH] using Pos.peano_ind.
  - now apply shifted_first.
  - rewrite iter_pos_succ, Pos2Z.inj_succ. apply shr_1_shifted; [lia | exact IH].
Qed.

(** Rounding to nearest even after a shift. *)
Lemma round_shifted (M k : Z) (mrs : shr_record) :
  1 <= k -> shifted M k mrs ->
  let m := round_nearest_even (shr_m mrs) (loc_of_shr_record mrs) in
  shr_m mrs <= m <= shr_m mrs + 1 /\
  2 * Z.abs (m * 2 ^ k - M) <= 2 ^ k.
Proof.
  intros Hk (low & HM & Hlow & Hs & Hm).
  destruct mrs as [m r s]. cbn [shr_m shr_r shr_s] in *.
  assert (Hpow' : 2 ^ k = 2 * 2 ^ (k - 1)).
  { replace k with (k - 1 + 1) at 1 by lia. rewrite Z.pow_add_r; lia. }
  set (h := 2 ^ (k - 1)) in *. set (P := 2 ^ k) in *.
  destruct r, s; simpl in *.
  - assert (low <> 0) by (intros ->; destruct Hs as [_ Hs]; now specialize (Hs eq_refl)).
    split; [lia |]. rewrite HM. 
    replace ((m + 1) * P - (m * P + 1 * h + low)) with (h - low) by lia. lia.
  - assert (low = 0) by now apply Hs. subst low.
    destruct (Z.even m); (split; [lia |]); rewrite HM.
    + replace (m * P - (m * P + 1 * h + 0)) with (- h) by lia. lia.
    + replace ((m + 1) * P - (m * P + 1 * h + 0)) with h by lia. lia.
  - split; [lia |]. rewrite HM.
    replace (m * P - (m * P + 0 * h + low)) with (- low) by lia. lia.
  - split; [lia |]. rewrite HM.
    replace (m * P - (m * P + 0 * h + low)) with (- low) by lia. lia.
Qed.

Lemma fexp_normal (x : Z) : -1074 <= x - 53 -> fexp 53 1024 x = x - 53.
Proof. unfold fexp, emin. lia. Qed.

Lemma binary_round_aux_pos (M : positive) (e : Z) :
  let d := Z.pos (digits2_pos M) in
  -1074 <= d + e - 53 ->
  e + Z.max 0 (d - 52) <= 971 ->
  exists m3 n,
    binary_round_aux 53 1024 false (Z.pos M) e loc_Exact = S754_finite false m3 (e + n) /\
    0 <= n <= Z.max 0 (d - 52) /\
    (d <= 53 -> n = 0) /\
    2 * Z.abs (Z.pos m3 * 2 ^ n - Z.pos M) <= 2 ^ n.
Proof.
  intros d Hmin Hmax.
  unfold binary_round_aux, shr_fexp.
  change (Zdigits2 (Z.pos M)) with d.
  rewrite fexp_normal by lia.
  replace (d + e - 53 - e) with (d - 53) by lia.
  destruct (d - 53) as [|p|p] eqn:Hshift.
  - (* no shift *)
    cbn [shr shr_record_of_loc shr_m loc_of_shr_record round_nearest_even].
    change (Zdigits2 (Z.pos M)) with d.
    rewrite fexp_normal by lia. replace (d + e - 53 - e) with 0 by lia.
    cbn [shr shr_m shr_record_of_loc].
    destruct (Z.leb_spec e (971)) as [_ | Hlt]; [| lia].
    change (1024 - 53) with 971.
    destruct (Z.leb_spec e (971)) as [_ | Hlt]; [| lia].
    exists M, 0. rewrite Z.add_0_r. repeat split; try lia.
  - (* a shift by [p] digits, and perhaps one more after rounding up *)
    cbn [shr].
    pose proof (iter_shr_1_shifted (Z.pos M) p ltac:(lia)) as Hshifted.
    set (mrs := SpecFloat.iter_pos shr_1 p _) in *.
    cbn [shr_record_of_loc] in mrs.
    destruct (round_shifted (Z.pos M) (Z.pos p) mrs ltac:(lia) Hshifted)
      as [Hround Hnear].
    set (m2 := round_nearest_even (shr_m mrs) (loc_of_shr_record mrs)) in *.
    pose proof (digits2_pos_bounds M) as HM. fold d in HM.
    assert (Hd : d = Z.pos p + 53) by lia.
    assert (Hpd : 2 ^ d = 2 ^ Z.pos p * 9007199254740992).
    { rewrite Hd, Z.pow_add_r by lia. reflexivity. }
    assert (Hpd' : 2 ^ (d - 1) = 2 ^ Z.pos p * 4503599627370496).
    { replace (d - 1) with (Z.pos p + 52) by lia. rewrite Z.pow_add_r by lia.
      reflexivity. }
    rewrite Hpd, Hpd' in HM.
    assert (HP : 0 < 2 ^ Z.pos p) by (apply Z.pow_pos_nonneg; lia).
    destruct Hshifted as (low & HMeq & Hlow & _ & Hm1).
    assert (Hlow' : 0 <= Z.b2z (shr_r mrs) * 2 ^ (Z.pos p - 1) + low < 2 ^ Z.pos p).
    { assert (2 ^ Z.pos p = 2 * 2 ^ (Z.pos p - 1)) as ->.
      { replace (Z.pos p) with (Z.pos p - 1 + 1) at 1 by lia.
        rewrite Z.pow_add_r; lia. }
      destruct (shr_r mrs); simpl; lia. }
    assert (Hm1b : 4503599627370496 <= shr_m mrs < 9007199254740992) by nia.
    assert (Hm2b : 4503599627370496 <= m2 <= 9007199254740992) by lia.
    destruct m2 as [|q|q] eqn:Hm2; try lia.
    destruct (Z.eq_dec (Z.pos q) 9007199254740992) as [Hq | Hq].
    + (* rounded up to 2^53 *)
      injection Hq as ->. 
      change (Zdigits2 9007199254740992) with 54.
      rewrite fexp_normal by lia.
      replace (54 + (e + Z.pos p) - 53 - (e + Z.pos p)) with 1 by lia.
      cbn [shr shr_record_of_loc SpecFloat.iter_pos shr_1 shr_m].
      change (1024 - 53) with 971.
      destruct (Z.leb_spec (e + Z.pos p + 1) 971) as [_ | Hlt]; [| lia].
      exists 4503599627370496%positive, (Z.pos p + 1).
      split; [f_equal; lia |]. split; [lia |]. split; [lia |].
      rewrite Z.pow_add_r by lia. change (2 ^ 1) with 2.
      lia.
    + assert (Hdq : Z.pos (digits2_pos q) = 53).
      { apply digits2_pos_unique. change (2 ^ (53 - 1)) with 4503599627370496.
        change (2 ^ 53) with 9007199254740992. lia. }
      cbn [Zdigits2]. rewrite Hdq.
      rewrite fexp_normal by lia.
      replace (53 + (e + Z.pos p) - 53 - (e + Z.pos p)) with 0 by lia.
      cbn [shr shr_record_of_loc shr_m].
      change (1024 - 53) with 971.
      destruct (Z.leb_spec (e + Z.pos p) 971) as [_ | Hlt]; [| lia].
      exists q, (Z.pos p).
      split; [reflexivity |]. split; [lia |]. split; [lia |]. exact Hnear.
  - cbn [shr shr_record_of_loc shr_m loc_of_shr_record round_nearest_even].
    change (Zdigits2 (Z.pos M)) with d.
    rewrite fexp_normal by lia. replace (d + e - 53 - e) with (Z.neg p) by lia.
    cbn [shr shr_m shr_record_of_loc].
    change (1024 - 53) with 971.
    destruct (Z.leb_spec e (971)) as [_ | Hlt]; [| lia].
    exists M, 0. rewrite Z.add_0_r. repeat split; try lia.
Qed.

Lemma pow2_split (a b : Z) : 0 <= a -> 0 <= b -> 2 ^ (a + b) = 2 ^ a * 2 ^ b.
Proof. intros. now apply Z.pow_add_r. Qed.

(** [float(c)] is exact below 2^53. *)
Lemma of_int_exact (c : Z) :
  0 < c < 2 ^ 53 ->
  exists mc k,
    PyFloat.of_int c = inr (S754_finite false mc (- k)) /\
    0 <= k <= 52 /\
    Z.pos mc = c * 2 ^ k /\
    2 ^ 52 <= Z.pos mc < 2 ^ 53.
Proof.
  intros Hc. destruct c as [|p|p]; try lia.
  unfold PyFloat.of_int, binary_normalize, binary_round, PyFloat.prec, PyFloat.emax.
  pose proof (digits2_pos_bounds p) as Hp.
  set (d := Z.pos (digits2_pos p)) in *.
  assert (Hd : 1 <= d <= 53).
  { split; [unfold d; lia |].
    destruct (Z.leb_spec d 53) as [|Hgt]; [assumption |].
    assert (2 ^ 53 <= 2 ^ (d - 1)) by (apply Z.pow_le_mono_r; lia). lia. }
  rewrite Z.add_0_r, fexp_normal by lia.
  unfold shl_align. rewrite Z.sub_0_r.
  assert (Hcase : d - 53 = 0 \/ exists k, d - 53 = Z.neg k).
  { destruct (d - 53) as [|q|q] eqn:Hq; [now left | lia | right; now exists q]. }
  destruct Hcase as [Hz | [k Hk]].
  - rewrite Hz.
    destruct (binary_round_aux_pos p 0) as (m3 & n & -> & Hn & Hn0 & Hnear);
      fold d; try lia.
    rewrite (Hn0 ltac:(lia)) in *. change (2 ^ 0) with 1 in Hnear.
    assert (m3 = p) as -> by lia.
    exists p, 0. change (2 ^ 0) with 1. replace (d - 1) with 52 in Hp by lia.
    replace d with 53 in Hp by lia.
    repeat split; try lia.
  - rewrite Hk.
    pose proof (iter_xO p k) as Hmz.
    set (mz := PosDef.Pos.iter xO p k) in *. 
    assert (Hpow : 2 ^ (d - 1) * 2 ^ Z.pos k = 2 ^ 52).
    { rewrite <- pow2_split by lia. f_equal. lia. }
    assert (Hpow' : 2 ^ d * 2 ^ Z.pos k = 2 ^ 53).
    { rewrite <- pow2_split by lia. f_equal. lia. }
    assert (HK : 0 < 2 ^ Z.pos k) by (apply Z.pow_pos_nonneg; lia).
    assert (Hmzb : 2 ^ 52 <= Z.pos mz < 2 ^ 53) by (rewrite Hmz; nia).
    assert (Hdz : Z.pos (digits2_pos mz) = 53).
    { apply digits2_pos_unique. exact Hmzb. }
    destruct (binary_round_aux_pos mz (Z.neg k)) as (m3 & n & -> & Hn & Hn0 & Hnear);
      rewrite ?Hdz; try lia.
    rewrite (Hn0 ltac:(lia)) in *. change (2 ^ 0) with 1 in Hnear.
    assert (m3 = mz) as -> by lia.
    exists mz, (Z.pos k). rewrite Z.add_0_r.
    repeat split; try lia.
Qed.

(** The product of an int below 2^50 with a double of [[1/2, 1)]: the
    nearest double, in integers. *)
Lemma int_mul_nearest (c : Z) (my : positive) :
  0 < c < 2 ^ 50 ->
  2 ^ 52 <= Z.pos my < 2 ^ 53 ->
  exists m3 E P K,
    PyFloat.int_mul c (S754_finite false my (-53)) = inr (S754_finite false m3 (- E)) /\
    0 < E /\ 0 < P <= 2 ^ 54 /\ 8 <= K /\ c * K < 2 ^ 53 /\
    P * 2 ^ E = K * 2 ^ 53 /\
    2 * Z.abs (Z.pos m3 * P - c * K * Z.pos my) <= P.
Proof.
  intros Hc Hmy.
  destruct (of_int_exact c) as (mc & k & Hof & Hk & Hmc & Hmcb).
  { split; [lia |]. apply Z.lt_trans with (2 ^ 50); [lia | reflexivity]. }
  unfold PyFloat.int_mul. rewrite Hof.
  unfold SFmul, PyFloat.prec, PyFloat.emax. cbn [xorb].
  change (2 ^ 50) with 1125899906842624 in *.
  change (2 ^ 52) with 4503599627370496 in *.
  change (2 ^ 53) with 9007199254740992 in *.
  assert (HK : 8 <= 2 ^ k).
  { destruct (Z.leb_spec 3 k) as [H3 | H3].
    - change 8 with (2 ^ 3). apply Z.pow_le_mono_r; lia.
    - assert (2 ^ k <= 2 ^ 2) by (apply Z.pow_le_mono_r; lia).
      change (2 ^ 2) with 4 in *. nia. }
  assert (Hk3 : 3 <= k).
  { destruct (Z.leb_spec 3 k) as [H3 | H3]; [assumption |].
    assert (2 ^ k <= 2 ^ 2) by (apply Z.pow_le_mono_r; lia).
    change (2 ^ 2) with 4 in *. lia. }
  set (M := (mc * my)%positive).
  assert (HMv : Z.pos M = c * 2 ^ k * Z.pos my) by (unfold M; lia).
  assert (HMb : 2 ^ 104 <= Z.pos M < 2 ^ 106).
  { change (2 ^ 104) with (4503599627370496 * 4503599627370496).
    change (2 ^ 106) with (9007199254740992 * 9007199254740992).
    unfold M. rewrite Pos2Z.inj_mul. nia. }
  pose proof (digits2_pos_bounds M) as HdM.
  set (d := Z.pos (digits2_pos M)) in *.
  assert (Hd : 105 <= d <= 106).
  { split.
    - destruct (Z.leb_spec 105 d) as [|Hlt]; [assumption |].
      assert (2 ^ d <= 2 ^ 104) by (apply Z.pow_le_mono_r; lia). lia.
    - destruct (Z.leb_spec d 106) as [|Hgt]; [assumption |].
      assert (2 ^ 106 <= 2 ^ (d - 1)) by (apply Z.pow_le_mono_r; lia). lia. }
  destruct (binary_round_aux_pos M (- k + -53)) as (m3 & n & -> & Hn & _ & Hnear);
    fold d; try lia.
  exists m3, (k + 53 - n), (2 ^ n), (2 ^ k).
  split; [do 2 f_equal; lia |].
  split; [lia |].
  split.
  { split; [apply Z.pow_pos_nonneg; lia |]. apply Z.pow_le_mono_r; lia. }
  split; [exact HK |].
  split; [lia |].
  split.
  { rewrite <- pow2_split by lia. replace (n + (k + 53 - n)) with (k + 53) by lia.
    rewrite pow2_split by lia. reflexivity. }
  rewrite <- HMv. exact Hnear.
Qed.

Lemma compare_int_finite (m : positive) (E N : Z) :
  0 < E ->
  PyFloat.compare_int (S754_finite false m (- E)) N = Some (Z.pos m ?= N * 2 ^ E).
Proof.
  intros HE. unfold PyFloat.compare_int. cbn [cond_Zopp].
  destruct (Z.leb_spec 0 (- E)); [lia |]. now rewrite Z.opp_involutive.
Qed.

(** [n < c * 0.6] is [n < 3c/5]. *)
Lemma int_mul_0_6 (c : Z) :
  0 <= c < 2 ^ 50 ->
  exists f, PyFloat.int_mul c PyFloat.lit_0_6 = inr f /\
            forall N, PyFloat.int_lt N f = (5 * N <? 3 * c).
Proof.
  intros Hc. destruct (Z.eq_dec c 0) as [-> | Hne].
  { exists (S754_zero false). split; [reflexivity |]. intros N.
    unfold PyFloat.int_lt, PyFloat.compare_int.
    destruct (Z.compare_spec 0 N), (Z.ltb_spec (5 * N) (3 * 0)); lia || reflexivity. }
  destruct (int_mul_nearest c 5404319552844595) as
    (m3 & E & P & K & Hmul & HE & HP & HK & HcK & HPQ & Hnear).
  { lia. } { split; reflexivity || discriminate. }
  exists (S754_finite false m3 (- E)). split; [exact Hmul |]. intros N.
  unfold PyFloat.int_lt. rewrite compare_int_finite by assumption.
  change (2 ^ 53) with 9007199254740992 in *. change (2 ^ 54) with 18014398509481984 in *.
  change (2 ^ 50) with 1125899906842624 in *.
  set (Q := 2 ^ E) in *. set (m := Z.pos m3) in *.
  assert (HQ : 0 < Q) by (apply Z.pow_pos_nonneg; lia).
  set (W := c * K) in *.
  assert (HW : W * 9007199254740992 = c * (P * Q)) by (rewrite HPQ; unfold W; ring).
  destruct (Z.ltb_spec (5 * N) (3 * c)) as [Hlt | Hge].
  - (* below the threshold *)
    destruct (Z.compare_spec m (N * Q)) as [Heq | Hmlt | Hmgt]; [| | reflexivity]; exfalso.
    + assert (m * P = N * (P * Q)) by (rewrite Heq; ring).
      assert ((5 * N + 1) * (P * Q) <= 3 * c * (P * Q)) by (apply Z.mul_le_mono_nonneg_r; nia).
      nia.
    + assert (m * P <= N * Q * P) by (apply Z.mul_le_mono_nonneg_r; lia).
      assert ((5 * N + 1) * (P * Q) <= 3 * c * (P * Q)) by (apply Z.mul_le_mono_nonneg_r; nia).
      nia.
  - destruct (Z.compare_spec m (N * Q)) as [Heq | Hmlt | Hmgt]; try reflexivity; exfalso.
    assert ((N * Q + 1) * P <= m * P) by (apply Z.mul_le_mono_nonneg_r; lia).
    assert (3 * c * (P * Q) <= 5 * N * (P * Q)) by (apply Z.mul_le_mono_nonneg_r; nia).
    nia.
Qed.

(** [n > c * 0.8] is [n > 4c/5]. *)
Lemma int_mul_0_8 (c : Z) :
  0 <= c < 2 ^ 50 ->
  exists f, PyFloat.int_mul c PyFloat.lit_0_8 = inr f /\
            forall N, PyFloat.int_gt N f = (4 * c <? 5 * N).
Proof.
  intros Hc. destruct (Z.eq_dec c 0) as [-> | Hne].
  { exists (S754_zero false). split; [reflexivity |]. intros N.
    unfold PyFloat.int_gt, PyFloat.compare_int.
    destruct (Z.compare_spec 0 N), (Z.ltb_spec (4 * 0) (5 * N)); lia || reflexivity. }
  destruct (int_mul_nearest c 7205759403792794) as
    (m3 & E & P & K & Hmul & HE & HP & HK & HcK & HPQ & Hnear).
  { lia. } { split; reflexivity || discriminate. }
  exists (S754_finite false m3 (- E)). split; [exact Hmul |]. intros N.
  unfold PyFloat.int_gt. rewrite compare_int_finite by assumption.
  change (2 ^ 53) with 9007199254740992 in *. change (2 ^ 54) with 18014398509481984 in *.
  change (2 ^ 50) with 1125899906842624 in *.
  set (Q := 2 ^ E) in *. set (m := Z.pos m3) in *.
  assert (HQ : 0 < Q) by (apply Z.pow_pos_nonneg; lia).
  set (W := c * K) in *.
  assert (HW : W * 9007199254740992 = c * (P * Q)) by (rewrite HPQ; unfold W; ring).
  destruct (Z.ltb_spec (4 * c) (5 * N)) as [Hlt | Hge].
  - (* above the limit *)
    destruct (Z.compare_spec m (N * Q)) as [Heq | Hmlt | Hmgt]; [| reflexivity |]; exfalso.
    + assert (m * P = N * (P * Q)) by (rewrite Heq; ring).
      assert ((4 * c + 1) * (P * Q) <= 5 * N * (P * Q)) by (apply Z.mul_le_mono_nonneg_r; nia).
      nia.
    + assert (N * Q * P <= m * P) by (apply Z.mul_le_mono_nonneg_r; lia).
      assert ((4 * c + 1) * (P * Q) <= 5 * N * (P * Q)) by (apply Z.mul_le_mono_nonneg_r; nia).
      nia.
  - destruct (Z.compare_spec m (N * Q)) as [Heq | Hmlt | Hmgt]; try reflexivity; exfalso.
    assert ((m + 1) * P <= N * Q * P) by (apply Z.mul_le_mono_nonneg_r; lia).
    assert (5 * N * (P * Q) <= 4 * c * (P * Q)) by (apply Z.mul_le_mono_nonneg_r; nia).
    nia.
Qed.

Lemma int_mul_succeeds (c : Z) (f g : PyFloat.float) (x : PyFloat.float) :
  PyFloat.int_mul c f = inr x -> exists y, PyFloat.int_mul c g = inr y.
Proof.
  unfold PyFloat.int_mul. destruct (PyFloat.of_int c) as [e | z]; [discriminate |].
  intros _. now eexists.
Qed.

(** ** Title generation *)

Section Title.

Variable service : list exchange -> request -> response.

(** What [generate_text_name] does, in one equation. *)
Lemma generate_text_name_run (self : TranscriptProcessor) (transcript : string)
    (head : Z) (w : world) :
  let rq := request_of self name_instructions (PyStr.slice_to transcript head)
              default_model in
  generate_text_name service self transcript head w =
    match service (exchanges w) rq with
    | inl what =>
        (Raised (RemoteFailure what), after_exchanges w [(rq, inl what)])
    | inr (PyStr content) =>
        (Returned (PyStr (title_of content)),
         after_exchanges w [(rq, inr (PyStr content))])
    | inr PyNone =>
        (Raised AttributeError, after_exchanges w [(rq, inr PyNone)])
    end.
Proof.
  unfold generate_text_name, bind, model_response, request_of, after_exchanges, ret,
    raise.
  cbv zeta.
  destruct (service _ _) as [what | [| content]]; try reflexivity.
  now rewrite replace_title.
Qed.

(** C8, as the code has it. Title generation: for a head count that is
    not negative, [generate_text_name] makes one remote call, whose user
    text is the first [head] characters of the transcript (all of it when
    it is shorter); when the call answers with a text, the value returned
    is the answer with every double quote removed and every space replaced
    by an underscore, so that [He said "Go Fast"] comes back as
    [He_said_Go_Fast]. *)
Theorem title_generation (self : TranscriptProcessor) (transcript : string)
    (head : Z) (w : world) :
  0 <= head ->
  exists prompt rest answer,
    transcript = (prompt ++ rest)%string /\
    String.length prompt = Nat.min (Z.to_nat head) (String.length transcript) /\
    snd (generate_text_name service self transcript head w) =
      after_exchanges w [(request_of self name_instructions prompt default_model, answer)] /\
    fst (generate_text_name service self transcript head w) =
      match answer with
      | inl what => Raised (RemoteFailure what)
      | inr (PyStr content) => Returned (PyStr (title_of content))
      | inr PyNone => Raised AttributeError
      end /\
    (forall content c,
       answer = inr (PyStr content) ->
       In c (list_ascii_of_string (title_of content)) -> c <> dquote /\ c <> space) /\
    title_of said_go_fast = "He_said_Go_Fast".
Proof.
  intros Hhead.
  destruct (take_prefix (Z.to_nat head) transcript) as [rest Hrest].
  exists (PyStr.take (Z.to_nat head) transcript), rest.
  pose proof (generate_text_name_run self transcript head w) as Hrun.
  cbv zeta in Hrun. rewrite slice_to_nonneg in Hrun by assumption.
  set (rq := request_of self name_instructions _ default_model) in *.
  exists (service (exchanges w) rq).
  split; [exact Hrest |].
  split; [apply take_length |].
  rewrite Hrun.
  destruct (service (exchanges w) rq) as [what | [| content]]; cbn [fst snd].
  - split; [reflexivity |]. split; [reflexivity |].
    split; [| reflexivity]. intros content c [=].
  - split; [reflexivity |]. split; [reflexivity |].
    split; [| reflexivity]. intros content c [=].
  - split; [reflexivity |]. split; [reflexivity |].
    split; [| reflexivity].
    intros content' c [= <-] Hin. now apply title_of_clean in Hin.
Qed.

(** C10. [generate_text_name] addresses its one remote call to the default
    model ["gpt-3.5-turbo-0125"], whatever the processor and its
    arguments: the method takes no model. *)
Theorem title_uses_default_model (self : TranscriptProcessor) (transcript : string)
    (head : Z) (w : world) :
  exists rq answer,
    exchanges (snd (generate_text_name service self transcript head w)) =
      exchanges w ++ [(rq, answer)] /\
    rq_model rq = "gpt-3.5-turbo-0125".
Proof.
  pose proof (generate_text_name_run self transcript head w) as Hrun.
  cbv zeta in Hrun. rewrite Hrun.
  set (rq := request_of self name_instructions _ default_model).
  exists rq, (service (exchanges w) rq).
  destruct (service (exchanges w) rq) as [what | [| content]]; split; reflexivity.
Qed.

End Title.

(** A negative [head] is counted from the end of the transcript. *)
Example generate_text_name_negative_head :
  fst (generate_text_name (canned_service [inr (PyStr "T")]) (init None) "abcdef" (-2)
         fresh_world)
    = Returned (PyStr "T") /\
  map (fun x => rq_user (fst x))
    (exchanges (snd (generate_text_name (canned_service [inr (PyStr "T")]) (init None)
                       "abcdef" (-2) fresh_world)))
    = ["abcd"].
Proof. split; reflexivity. Qed.

(** C8, as the specification has it, fails for a head of -2: the user
    text sent is not the first [head] characters of the transcript, of
    which there are none, but its first four. *)
Lemma head_not_a_count :
  ~ (exists prompt rest answer,
       "abcdef" = (prompt ++ rest)%string /\
       String.length prompt = Nat.min (Z.to_nat (-2)) (String.length "abcdef") /\
       snd (generate_text_name (canned_service [inr (PyStr "T")]) (init None)
              "abcdef" (-2) fresh_world) =
         after_exchanges fresh_world
           [(request_of (init None) name_instructions prompt default_model, answer)]).
Proof.
  intros (prompt & rest & answer & _ & Hlen & Hsent).
  vm_compute in Hsent. injection Hsent as Hprompt _. subst prompt.
  vm_compute in Hlen. discriminate Hlen.
Qed.

Lemma title_generation_witness :
  0 <= 5 /\
  exists prompt rest answer,
    "Hello world" = (prompt ++ rest)%string /\
    String.length prompt = Nat.min (Z.to_nat 5) (String.length "Hello world") /\
    snd (generate_text_name (canned_service [inr (PyStr said_go_fast)]) (init None)
           "Hello world" 5 fresh_world) =
      after_exchanges fresh_world
        [(request_of (init None) name_instructions prompt default_model, answer)] /\
    fst (generate_text_name (canned_service [inr (PyStr said_go_fast)]) (init None)
           "Hello world" 5 fresh_world) =
      match answer with
      | inl what => Raised (RemoteFailure what)
      | inr (PyStr content) => Returned (PyStr (title_of content))
      | inr PyNone => Raised AttributeError
      end /\
    (forall content c,
       answer = inr (PyStr content) ->
       In c (list_ascii_of_string (title_of content)) -> c <> dquote /\ c <> space) /\
    title_of said_go_fast = "He_said_Go_Fast".
Proof.
  split; [lia |].
  apply (title_generation (canned_service [inr (PyStr said_go_fast)]) (init None)
           "Hello world" 5 fresh_world).
  lia.
Defined.

(** ** Runs *)

Lemma orderly_app {A} (out : outcome A) (new1 new2 : list exchange) :
  Forall succeeded new1 -> orderly out new2 -> orderly out (new1 ++ new2).
Proof.
  intros H1 H2. destruct out as [b | e]; simpl in *.
  - now apply Forall_app.
  - destruct H2 as [H2 | (earlier & rq & what & -> & Hearlier & ->)].
    + left. now apply Forall_app.
    + right. exists (new1 ++ earlier), rq, what.
      rewrite app_assoc. repeat split. now apply Forall_app.
Qed.

Lemma quiet_ret {A} (a : A) : quiet (ret a).
Proof. intros w. exists []. simpl. rewrite app_nil_r. now repeat split. Qed.

Lemma quiet_raise {A} (e : exn) : quiet (raise (A:=A) e).
Proof.
  intros w. exists []. simpl. rewrite app_nil_r. repeat split. now left.
Qed.

Lemma quiet_lift {A} (x : exn + A) : quiet (lift x).
Proof. destruct x; [apply quiet_raise | apply quiet_ret]. Qed.

Lemma quiet_print (n : notice) : quiet (print n).
Proof. intros w. exists []. simpl. rewrite app_nil_r. now repeat split. Qed.

Lemma quiet_bind {A B} (c : M A) (k : A -> M B) :
  quiet c -> (forall a, quiet (k a)) -> quiet (bind c k).
Proof.
  intros Hc Hk w. unfold bind.
  destruct (Hc w) as (new1 & Hx1 & Hs1 & Ho1).
  destruct (c w) as [[a | e] w1]; simpl in *.
  - destruct (Hk a w1) as (new2 & Hx2 & Hs2 & Ho2).
    exists (new1 ++ new2). rewrite Hx2, Hx1, Hs2, Hs1, app_assoc.
    repeat split. now apply orderly_app.
  - exists new1. now repeat split.
Qed.

Lemma quiet_for_each {A S} (body : S -> A -> M S) (l : list A) :
  (forall acc x, quiet (body acc x)) -> forall acc, quiet (for_each l body acc).
Proof.
  intros Hbody. induction l as [|x l IH]; intros acc; simpl.
  - apply quiet_ret.
  - apply quiet_bind; [apply Hbody | exact IH].
Qed.

Lemma quiet_make_chunks (context_length : Z) (transcript : string) :
  quiet (make_chunks context_length transcript).
Proof.
  unfold make_chunks. apply quiet_bind.
  - apply quiet_for_each. intros; apply quiet_lift.
  - intros; apply quiet_ret.
Qed.

Section Runs.

Variable service : list exchange -> request -> response.

Lemma model_response_run (self : TranscriptProcessor)
    (instructions prompt model : string) (w : world) :
  let rq := request_of self instructions prompt model in
  model_response service self instructions prompt model w =
    match service (exchanges w) rq with
    | inl what => (Raised (RemoteFailure what), after_exchanges w [(rq, inl what)])
    | inr content => (Returned content, after_exchanges w [(rq, inr content)])
    end.
Proof.
  unfold model_response, request_of, after_exchanges. cbv zeta.
  now destruct (service _ _).
Qed.

Lemma quiet_model_response (self : TranscriptProcessor)
    (instructions prompt model : string) :
  quiet (model_response service self instructions prompt model).
Proof.
  intros w. rewrite model_response_run. cbv zeta.
  set (rq := request_of _ _ _ _).
  exists [(rq, service (exchanges w) rq)].
  destruct (service (exchanges w) rq) as [what | content] eqn:Hanswer; simpl.
  - repeat split. right. exists [], rq, what. now repeat split.
  - repeat split. now repeat constructor.
Qed.

Lemma concluding_model_response (self : TranscriptProcessor)
    (instructions prompt model : string) :
  concluding (model_response service self instructions prompt model).
Proof.
  intros w text w'. rewrite model_response_run. cbv zeta.
  destruct (service _ _) as [what | content]; intros [= <- <-].
  exists [], (request_of self instructions prompt model). reflexivity.
Qed.

Lemma concluding_bind {A} (c : M A) (k : A -> M pyval) :
  quiet c -> (forall a, concluding (k a)) -> concluding (bind c k).
Proof.
  intros Hc Hk w text w'. unfold bind.
  destruct (Hc w) as (new1 & Hx1 & _ & _).
  destruct (c w) as [[a | e] w1]; simpl in *; [| discriminate].
  intros Hrun. destruct (Hk a w1 text w' Hrun) as (earlier & rq & Hx2).
  exists (new1 ++ earlier), rq. rewrite Hx2, Hx1. now rewrite !app_assoc.
Qed.

Lemma quiet_summarize_parts (self : TranscriptProcessor) (model : string)
    (chunks : list string) :
  quiet (summarize_parts service self model chunks).
Proof.
  unfold summarize_parts. apply quiet_for_each. intros summaries [i chunk].
  apply quiet_bind; [apply quiet_print | intros _].
  apply quiet_bind; [apply quiet_model_response | intros; apply quiet_ret].
Qed.

Lemma quiet_print_sizes (chunks : list string) (start : nat) :
  quiet (for_each (enumerate start chunks)
           (fun (_ : unit) '(i, ch) => print (ChunkSize i (PyStr.len ch))) tt).
Proof. apply quiet_for_each. intros _ [i ch]. apply quiet_print. Qed.

Lemma quiet_chunked_summary (self : TranscriptProcessor) (context_length : Z)
    (transcript model : string) :
  quiet (chunked_summary service self context_length transcript model).
Proof.
  unfold chunked_summary.
  apply quiet_bind; [apply quiet_make_chunks | intros chunks].
  apply quiet_bind; [apply quiet_print_sizes | intros _].
  apply quiet_bind; [apply quiet_summarize_parts | intros summaries].
  apply quiet_bind; [apply quiet_print | intros _].
  apply quiet_bind; [apply quiet_lift | intros joined].
  apply quiet_model_response.
Qed.

Lemma concluding_chunked_summary (self : TranscriptProcessor) (context_length : Z)
    (transcript model : string) :
  concluding (chunked_summary service self context_length transcript model).
Proof.
  unfold chunked_summary.
  apply concluding_bind; [apply quiet_make_chunks | intros chunks].
  apply concluding_bind; [apply quiet_print_sizes | intros _].
  apply concluding_bind; [apply quiet_summarize_parts | intros summaries].
  apply concluding_bind; [apply quiet_print | intros _].
  apply concluding_bind; [apply quiet_lift | intros joined].
  apply concluding_model_response.
Qed.

End Runs.

(** ** [summarize_transcript]: outcome, remote calls and [summary.md] *)

Section Summarize.

Variable service : list exchange -> request -> response.

Lemma quiet_branch (self : TranscriptProcessor) (context_length : Z)
    (transcript model : string) (direct : bool) :
  quiet (summary_branch service self context_length transcript model direct).
Proof.
  destruct direct; [apply quiet_model_response | apply quiet_chunked_summary].
Qed.

Lemma concluding_branch (self : TranscriptProcessor) (context_length : Z)
    (transcript model : string) (direct : bool) :
  concluding (summary_branch service self context_length transcript model direct).
Proof.
  destruct direct; [apply concluding_model_response | apply concluding_chunked_summary].
Qed.

(** [summarize_transcript], step by step. *)
Lemma summarize_transcript_run (self : TranscriptProcessor)
    (transcript model : string) (w : world) :
  summarize_transcript service self transcript model w =
    match getitem (models self) model with
    | inl e => (Raised e, w)
    | inr profile =>
        match PyFloat.int_mul (context profile * 4) PyFloat.lit_0_6 with
        | inl e => (Raised e, w)
        | inr threshold =>
            match summary_branch service self (context profile * 4) transcript model
                    (PyFloat.int_lt (PyStr.len transcript) threshold) w with
            | (Returned (PyStr text), w1) =>
                (Returned PyNone,
                 {| exchanges := exchanges w1; stdout := stdout w1;
                    summary_md := Some text |})
            | (Returned PyNone, w1) =>
                (Raised TypeError,
                 {| exchanges := exchanges w1; stdout := stdout w1;
                    summary_md := Some EmptyString |})
            | (Raised e, w1) => (Raised e, w1)
            end
        end
    end.
Proof.
  unfold summarize_transcript, summary_branch, bind.
  destruct (getitem (models self) model) as [e | profile]; [reflexivity |]. simpl.
  destruct (PyFloat.int_mul (context profile * 4) PyFloat.lit_0_6)
    as [e | threshold]; [reflexivity |]. simpl.
  destruct (PyFloat.int_lt (PyStr.len transcript) threshold).
  - now destruct (direct_summary service self transcript model w)
      as [[[| text] | e] w1].
  - now destruct (chunked_summary service self (context profile * 4) transcript model w)
      as [[[| text] | e] w1].
Qed.

(** Every run of [summarize_transcript], at a glance. *)
Lemma summarize_transcript_shape (self : TranscriptProcessor)
    (transcript model : string) (w : world) :
  exists new,
    exchanges (snd (summarize_transcript service self transcript model w)) =
      exchanges w ++ new /\
    match fst (summarize_transcript service self transcript model w) with
    | Returned v =>
        v = PyNone /\ Forall succeeded new /\
        exists earlier rq text,
          new = earlier ++ [(rq, inr (PyStr text))] /\
          summary_md (snd (summarize_transcript service self transcript model w)) =
            Some text
    | Raised e =>
        (summary_md (snd (summarize_transcript service self transcript model w)) =
           summary_md w /\
         orderly (A:=pyval) (Raised e) new) \/
        (e = TypeError /\ Forall succeeded new /\
         (exists earlier rq, new = earlier ++ [(rq, inr PyNone)]) /\
         summary_md (snd (summarize_transcript service self transcript model w)) =
           Some EmptyString)
    end.
Proof.
  rewrite summarize_transcript_run.
  destruct (getitem (models self) model) as [e | profile]; simpl.
  { exists []. rewrite app_nil_r. split; [reflexivity |]. left. split; [reflexivity |].
    now left. }
  destruct (PyFloat.int_mul (context profile * 4) PyFloat.lit_0_6)
    as [e | threshold]; simpl.
  { exists []. rewrite app_nil_r. split; [reflexivity |]. left. split; [reflexivity |].
    now left. }
  set (direct := PyFloat.int_lt (PyStr.len transcript) threshold).
  destruct (quiet_branch self (context profile * 4) transcript model direct w)
    as (new & Hx & Hs & Ho).
  pose proof (concluding_branch self (context profile * 4) transcript model direct w)
    as Hlast.
  destruct (summary_branch service self (context profile * 4) transcript model direct w)
    as [[[| text] | e] w1]; simpl in *.
  - exists new. split; [exact Hx |]. right.
    split; [reflexivity |]. split; [exact Ho |]. split; [| reflexivity].
    destruct (Hlast PyNone w1 eq_refl) as (earlier & rq & Hx').
    exists earlier, rq. rewrite Hx in Hx'. now apply app_inv_head in Hx'.
  - exists new. split; [exact Hx |]. split; [reflexivity |]. split; [exact Ho |].
    destruct (Hlast (PyStr text) w1 eq_refl) as (earlier & rq & Hx').
    exists earlier, rq, text. split; [| reflexivity].
    rewrite Hx in Hx'. now apply app_inv_head in Hx'.
  - exists new. split; [exact Hx |]. left. now split.
Qed.

(** C9. Unknown model rejection: when [model] is not a key of
    [self.models], [summarize_transcript] raises the [KeyError] of the
    lookup and leaves the world as it was: no remote call is made, nothing
    is printed and [summary.md] is not written. *)
Theorem unknown_model_rejected (self : TranscriptProcessor)
    (transcript model : string) (w : world) :
  models self !! model = None ->
  summarize_transcript service self transcript model w = (Raised (KeyError model), w).
Proof.
  intros Hnone. rewrite summarize_transcript_run. unfold getitem.
  now rewrite Hnone.
Qed.

(** C4, as the code has it. A run of [summarize_transcript] that returns
    hands [None] to its caller; the final summary, which is the answer to
    the last remote call of the run, is what [summary.md] then holds. *)
Theorem summary_persisted_not_returned (self : TranscriptProcessor)
    (transcript model : string) (w : world) (v : pyval) (w' : world) :
  summarize_transcript service self transcript model w = (Returned v, w') ->
  v = PyNone /\
  exists earlier rq text,
    exchanges w' = exchanges w ++ earlier ++ [(rq, inr (PyStr text))] /\
    summary_md w' = Some text.
Proof.
  intros Hrun.
  destruct (summarize_transcript_shape self transcript model w) as (new & Hx & Hout).
  rewrite Hrun in Hx, Hout. simpl in Hx, Hout.
  destruct Hout as (-> & _ & earlier & rq & text & -> & Hmd).
  split; [reflexivity |]. now exists earlier, rq, text.
Qed.


End Summarize.

(** C4, as the specification has it, fails: the run below returns, and
    what it returns is not the text it wrote to [summary.md]. *)
Lemma summary_not_yielded :
  ~ (forall service self transcript model w,
       (exists v, fst (summarize_transcript service self transcript model w) = Returned v) ->
       yields_persisted (fst (summarize_transcript service self transcript model w))
                        (snd (summarize_transcript service self transcript model w))).
Proof.
  intros Hyields.
  specialize (Hyields (canned_service [inr (PyStr "note")]) (init None) "Hi." default_model
                fresh_world).
  destruct Hyields as (text & Hreturned & _).
  - exists PyNone. vm_compute. reflexivity.
  - vm_compute in Hreturned. discriminate.
Qed.

Lemma summary_persisted_not_returned_witness :
  PyNone = PyNone /\
  exists earlier rq text,
    exchanges (snd (summarize_transcript (canned_service [inr (PyStr "note")]) (init None)
                      "Hi." default_model fresh_world)) =
      exchanges fresh_world ++ earlier ++ [(rq, inr (PyStr text))] /\
    summary_md (snd (summarize_transcript (canned_service [inr (PyStr "note")]) (init None)
                       "Hi." default_model fresh_world)) = Some text.
Proof.
  apply (summary_persisted_not_returned (canned_service [inr (PyStr "note")]) (init None)
           "Hi." default_model fresh_world).
  vm_compute. reflexivity.
Defined.

Lemma unknown_model_rejected_witness :
  summarize_transcript (canned_service []) (init None) "Hi." "gpt-5" fresh_world =
    (Raised (KeyError "gpt-5"), fresh_world).
Proof.
  apply (unknown_model_rejected (canned_service []) (init None) "Hi." "gpt-5" fresh_world).
  vm_compute. reflexivity.
Defined.



(** On the chunked path a call answered without content does not stop
    the run either: the next chunk is still sent, and [TypeError] comes
    from [join], before the last call and before the file is opened. *)
Example null_part_keeps_calling :
  summarize_transcript (canned_service [inr PyNone; inr (PyStr "s2")]) pocket_processor
    "aaaaaaa.b.c" "pocket" fresh_world =
  (Raised TypeError,
   {| exchanges :=
        [(request_of pocket_processor summarize_instructions "aaaaaaa" "pocket",
          inr PyNone);
         (request_of pocket_processor summarize_instructions "c" "pocket",
          inr (PyStr "s2"))];
      stdout := [ChunkSize 0 7; ChunkSize 1 1; SummarizingPart 1; SummarizingPart 2;
                 PartialSummaries [PyNone; PyStr "s2"]];
      summary_md := None |}).
Proof. vm_compute. reflexivity. Qed.

(** ** The chunking loop *)

Lemma total_len_app (l : list string) (s : string) :
  total_len (l ++ [s]) = total_len l + PyStr.len s.
Proof.
  unfold total_len. induction l as [|x l IH]; simpl; [lia |]. rewrite IH. lia.
Qed.

(** The loop of the source is the loop on groups, seen through [erase]. *)
Lemma chunk_sentence_erase (context_length : Z) (limit : PyFloat.float)
    (g : grouping) (sentence : string) :
  PyFloat.int_mul context_length PyFloat.lit_0_8 = inr limit ->
  chunk_sentence context_length (erase g) sentence =
    inr (erase (group_sentence limit g sentence)).
Proof.
  intros Hlimit. unfold chunk_sentence, group_sentence. rewrite Hlimit.
  cbn [erase current_chunk_length current_chunk chunks].
  destruct (PyFloat.int_gt (pending_length g) limit); unfold erase; simpl;
    [now rewrite map_app | reflexivity].
Qed.

Lemma for_each_chunk_sentence (context_length : Z) (limit : PyFloat.float)
    (sentences : list string) (g : grouping) (w : world) :
  PyFloat.int_mul context_length PyFloat.lit_0_8 = inr limit ->
  for_each sentences
    (fun st sentence => lift (chunk_sentence context_length st sentence))
    (erase g) w
  = (Returned (erase (group_all limit sentences g)), w).
Proof.
  intros Hlimit. revert g.
  induction sentences as [|sentence sentences IH]; intros g; simpl; [reflexivity |].
  unfold bind. rewrite (chunk_sentence_erase _ limit) by assumption. simpl.
  apply IH.
Qed.

Lemma flush_erase (g : grouping) :
  flush (erase g) = map (PyStr.join ".") (flush_groups g).
Proof.
  unfold flush, flush_groups, erase. simpl.
  destruct (pending g); [reflexivity |]. now rewrite map_app.
Qed.

Lemma make_chunks_groups (context_length : Z) (limit : PyFloat.float)
    (transcript : string) (w : world) :
  PyFloat.int_mul context_length PyFloat.lit_0_8 = inr limit ->
  make_chunks context_length transcript w =
    (Returned (map (PyStr.join ".") (groups limit transcript)), w).
Proof.
  intros Hlimit. unfold make_chunks, bind.
  change empty_chunker with (erase empty_grouping).
  rewrite (for_each_chunk_sentence _ limit) by assumption.
  unfold ret, groups. now rewrite flush_erase.
Qed.

Lemma group_sentence_tidy (limit : PyFloat.float) (g : grouping) (sentence : string) :
  PyFloat.int_gt 0 limit = false ->
  tidy limit g -> tidy limit (group_sentence limit g sentence).
Proof.
  intros Hzero (Hlen & Hclosed & Hpending). unfold group_sentence.
  destruct (PyFloat.int_gt (pending_length g) limit) eqn:Hgt; unfold tidy; simpl.
  - split; [reflexivity |]. split; [| now left].
    apply Forall_app. split; [assumption |]. constructor; [| constructor].
    destruct Hpending as [Hnil | Hb]; [| assumption].
    rewrite Hlen, Hnil in Hgt. simpl in Hgt. congruence.
  - split; [| split; [assumption |]].
    + fold (total_len (pending g ++ [sentence])). rewrite total_len_app.
      unfold total_len. now rewrite Hlen.
    + right. exists (pending g), sentence. split; [reflexivity |]. now rewrite <- Hlen.
Qed.

Lemma group_all_tidy (limit : PyFloat.float) (sentences : list string) (g : grouping) :
  PyFloat.int_gt 0 limit = false ->
  tidy limit g -> tidy limit (group_all limit sentences g).
Proof.
  intros Hzero. revert g. unfold group_all.
  induction sentences as [|sentence sentences IH]; intros g Hg; simpl; [assumption |].
  apply IH. now apply group_sentence_tidy.
Qed.

Lemma groups_bounded (limit : PyFloat.float) (transcript : string) :
  PyFloat.int_gt 0 limit = false ->
  Forall (bounded_by limit) (groups limit transcript).
Proof.
  intros Hzero. unfold groups, flush_groups.
  destruct (group_all_tidy limit (PyStr.split dot transcript) empty_grouping Hzero)
    as (_ & Hclosed & Hpending).
  { unfold tidy. simpl. repeat split; [constructor | now left]. }
  destruct (pending (group_all limit (PyStr.split dot transcript) empty_grouping))
    as [|s l] eqn:Hp; [assumption |].
  apply Forall_app. split; [assumption |]. constructor; [| constructor].
  destruct Hpending as [Hnil | Hb]; [discriminate | assumption].
Qed.

(** ** The sentence at a chunk boundary *)

Lemma split_nonempty (sep : ascii) (s : string) : PyStr.split sep s <> [].
Proof.
  destruct s as [|c s]; simpl; [discriminate |].
  destruct (Ascii.eqb c sep); [discriminate |].
  destruct (PyStr.split sep s); discriminate.
Qed.

Lemma split_app_sep (sep : ascii) (piece rest : string) :
  ~ In sep (list_ascii_of_string piece) ->
  PyStr.split sep (piece ++ String sep rest) = piece :: PyStr.split sep rest.
Proof.
  induction piece as [|c piece IH]; intros Hfree.
  - change (EmptyString ++ String sep rest)%string with (String sep rest).
    simpl. now rewrite Ascii.eqb_refl.
  - change (String c piece ++ String sep rest)%string
      with (String c (piece ++ String sep rest)).
    simpl in *.
    destruct (Ascii.eqb_spec c sep) as [-> | Hne]; [tauto |].
    rewrite IH by tauto. reflexivity.
Qed.

Lemma split_no_sep (sep : ascii) (piece : string) :
  ~ In sep (list_ascii_of_string piece) -> PyStr.split sep piece = [piece].
Proof.
  induction piece as [|c piece IH]; intros Hfree; simpl in *; [reflexivity |].
  destruct (Ascii.eqb_spec c sep) as [-> | Hne]; [tauto |].
  rewrite IH by tauto. reflexivity.
Qed.

Lemma repeat_chars (c : ascii) (n : nat) (x : ascii) :
  In x (list_ascii_of_string (PyStr.repeat c n)) -> x = c.
Proof.
  induction n as [|n IH]; simpl; [tauto |]. intros [<- | Hin]; [reflexivity | auto].
Qed.

Lemma repeat_len (c : ascii) (n : nat) : PyStr.len (PyStr.repeat c n) = Z.of_nat n.
Proof.
  unfold PyStr.len. f_equal. induction n as [|n IH]; simpl; [reflexivity | now rewrite IH].
Qed.

Lemma len_app (s t : string) : PyStr.len (s ++ t) = PyStr.len s + PyStr.len t.
Proof.
  unfold PyStr.len. induction s as [|c s IH].
  - reflexivity.
  - change (String c s ++ t)%string with (String c (s ++ t)).
    cbn [String.length]. lia.
Qed.

(** The loop body in integers: the chunk is closed when five times the
    count exceeds four times the context, and then the sentence at hand is
    put nowhere. *)
Lemma chunk_sentence_int (context_length : Z) (st : chunker) (sentence : string) :
  0 <= context_length < 2 ^ 50 ->
  chunk_sentence context_length st sentence =
    inr (if 4 * context_length <? 5 * current_chunk_length st then
           {| chunks := chunks st ++ [PyStr.join "." (current_chunk st)];
              current_chunk := [];
              current_chunk_length := 0 |}
         else
           {| chunks := chunks st;
              current_chunk := current_chunk st ++ [sentence];
              current_chunk_length := current_chunk_length st + PyStr.len sentence |}).
Proof.
  intros Hrange.
  destruct (int_mul_0_8 context_length Hrange) as (limit & Hlimit & Hgt).
  unfold chunk_sentence. rewrite Hlimit, Hgt.
  now destruct (4 * context_length <? 5 * current_chunk_length st).
Qed.

Lemma make_chunks_steps (context_length : Z) (transcript : string) (w : world)
    (s1 s2 s3 : string) (st1 st2 st3 : chunker) :
  PyStr.split dot transcript = [s1; s2; s3] ->
  chunk_sentence context_length empty_chunker s1 = inr st1 ->
  chunk_sentence context_length st1 s2 = inr st2 ->
  chunk_sentence context_length st2 s3 = inr st3 ->
  make_chunks context_length transcript w = (Returned (flush st3), w).
Proof.
  intros Hsplit H1 H2 H3. unfold make_chunks. rewrite Hsplit.
  cbn [for_each]. unfold bind. rewrite H1. cbn [lift ret]. rewrite H2.
  cbn [lift ret]. rewrite H3. reflexivity.
Qed.

Lemma first_sentence_len : PyStr.len first_sentence = 52433.
Proof. unfold first_sentence. rewrite repeat_len. lia. Qed.

Lemma first_sentence_no_dot : ~ In dot (list_ascii_of_string first_sentence).
Proof. intros Hin. apply repeat_chars in Hin. discriminate. Qed.

Lemma long_transcript_sentences :
  sentences_of long_transcript = [first_sentence; "b"; "c"].
Proof.
  unfold long_transcript.
  change ".b.c" with (String dot "b.c").
  rewrite split_app_sep by apply first_sentence_no_dot. reflexivity.
Qed.

Lemma long_transcript_len : PyStr.len long_transcript = 52437.
Proof.
  unfold long_transcript.
  rewrite len_app, first_sentence_len. reflexivity.
Qed.

Lemma context_in_range : 0 <= 16385 * 4 < 2 ^ 50.
Proof. split; [lia | reflexivity]. Qed.

Lemma long_transcript_step_1 :
  chunk_sentence (16385 * 4) empty_chunker first_sentence =
    inr {| chunks := []; current_chunk := [first_sentence];
           current_chunk_length := 52433 |}.
Proof.
  rewrite chunk_sentence_int by apply context_in_range.
  cbn [current_chunk_length empty_chunker current_chunk chunks].
  rewrite first_sentence_len. reflexivity.
Qed.

Lemma long_transcript_step_2 :
  chunk_sentence (16385 * 4)
    {| chunks := []; current_chunk := [first_sentence]; current_chunk_length := 52433 |}
    "b" =
    inr {| chunks := [first_sentence]; current_chunk := []; current_chunk_length := 0 |}.
Proof. rewrite chunk_sentence_int by apply context_in_range. reflexivity. Qed.

Lemma long_transcript_step_3 :
  chunk_sentence (16385 * 4)
    {| chunks := [first_sentence]; current_chunk := []; current_chunk_length := 0 |}
    "c" =
    inr {| chunks := [first_sentence]; current_chunk := ["c"];
           current_chunk_length := 1 |}.
Proof. rewrite chunk_sentence_int by apply context_in_range. reflexivity. Qed.

Lemma long_transcript_chunks (w : world) :
  make_chunks (16385 * 4) long_transcript w = (Returned [first_sentence; "c"], w).
Proof.
  rewrite (make_chunks_steps _ _ w _ _ _ _ _ _ long_transcript_sentences
             long_transcript_step_1 long_transcript_step_2 long_transcript_step_3).
  reflexivity.
Qed.

Lemma long_transcript_chunked (key : option string) :
  exists profile threshold,
    models (init key) !! default_model = Some profile /\
    PyFloat.int_mul (context profile * 4) PyFloat.lit_0_6 = inr threshold /\
    PyFloat.int_lt (PyStr.len long_transcript) threshold = false.
Proof.
  destruct (int_mul_0_6 (16385 * 4) context_in_range) as (threshold & Hmul & Hlt).
  exists (Profile 16385), threshold.
  split; [reflexivity |]. split; [exact Hmul |].
  rewrite Hlt, long_transcript_len. reflexivity.
Qed.

(** C1, on the code. For the processor [__init__] builds and its default
    model, [long_transcript] is summarised in chunks; its sentences are
    the 52433-character one, ["b"] and ["c"], and the chunks made of them
    are the first and the last: ["b"] is a sentence of the transcript and
    of no chunk, so the chunks do not cover the transcript. *)
Theorem long_transcript_not_covered (key : option string) (w : world) :
  (exists profile threshold,
     models (init key) !! default_model = Some profile /\
     context profile * 4 = 16385 * 4 /\
     PyFloat.int_mul (context profile * 4) PyFloat.lit_0_6 = inr threshold /\
     PyFloat.int_lt (PyStr.len long_transcript) threshold = false) /\
  sentences_of long_transcript = [first_sentence; "b"; "c"] /\
  make_chunks (16385 * 4) long_transcript w = (Returned [first_sentence; "c"], w) /\
  concat (map sentences_of [first_sentence; "c"]) = [first_sentence; "c"] /\
  In "b" (sentences_of long_transcript) /\
  ~ In "b" (concat (map sentences_of [first_sentence; "c"])) /\
  ~ covers [first_sentence; "c"] long_transcript.
Proof.
  assert (Hchunks : concat (map sentences_of [first_sentence; "c"]) =
                    [first_sentence; "c"]).
  { cbn [map concat].
    rewrite split_no_sep by apply first_sentence_no_dot. reflexivity. }
  split.
  { destruct (long_transcript_chunked key) as (profile & threshold & Hp & Hmul & Hlt).
    exists profile, threshold. repeat split; try assumption.
    vm_compute in Hp. now injection Hp as <-. }
  split; [apply long_transcript_sentences |].
  split; [apply long_transcript_chunks |].
  split; [exact Hchunks |].
  split; [rewrite long_transcript_sentences; right; now left |].
  split.
  { rewrite Hchunks. intros [Hb | [Hb | []]]; [| discriminate Hb].
    apply (f_equal PyStr.len) in Hb. rewrite first_sentence_len in Hb.
    discriminate Hb. }
  unfold covers. rewrite Hchunks, long_transcript_sentences. intros Heq.
  apply (f_equal (@List.length string)) in Heq. cbn [List.length] in Heq.
  discriminate Heq.
Qed.

(** C2, on the code. In the same run, the count is 52433 when ["b"] is
    reached, above the limit of 52432: the chunk is closed, and the state
    that follows holds ["b"] nowhere; the next chunk starts with ["c"]. *)
Theorem boundary_sentence_discarded :
  4 * (16385 * 4) < 5 * 52433 /\
  chunk_sentence (16385 * 4) empty_chunker first_sentence =
    inr {| chunks := []; current_chunk := [first_sentence];
           current_chunk_length := 52433 |} /\
  chunk_sentence (16385 * 4)
    {| chunks := []; current_chunk := [first_sentence]; current_chunk_length := 52433 |}
    "b" =
    inr {| chunks := [first_sentence]; current_chunk := []; current_chunk_length := 0 |} /\
  chunk_sentence (16385 * 4)
    {| chunks := [first_sentence]; current_chunk := []; current_chunk_length := 0 |}
    "c" =
    inr {| chunks := [first_sentence]; current_chunk := ["c"];
           current_chunk_length := 1 |} /\
  flush {| chunks := [first_sentence]; current_chunk := ["c"];
           current_chunk_length := 1 |} = [first_sentence; "c"].
Proof.
  split; [lia |].
  split; [apply long_transcript_step_1 |].
  split; [apply long_transcript_step_2 |].
  split; [apply long_transcript_step_3 | reflexivity].
Qed.

(** ** The two paths of [summarize_transcript] *)

Section Paths.

Variable service : list exchange -> request -> response.

Lemma print_sizes_run (chunks : list string) (start : nat) (w : world) :
  exists w1,
    for_each (enumerate start chunks)
      (fun (_ : unit) '(i, ch) => print (ChunkSize i (PyStr.len ch))) tt w
    = (Returned tt, w1) /\
    exchanges w1 = exchanges w /\ summary_md w1 = summary_md w.
Proof.
  revert start w. induction chunks as [|ch chunks IH]; intros start w; simpl.
  - now exists w.
  - unfold bind, print at 1.
    destruct (IH (S start)
                {| exchanges := exchanges w;
                   stdout := stdout w ++ [ChunkSize start (PyStr.len ch)];
                   summary_md := summary_md w |}) as (w1 & Hrun & Hx & Hmd).
    exists w1. now rewrite Hrun.
Qed.

(** The chunk-summarising loop, when it returns: one exchange per chunk,
    in order, and one summary per exchange. *)
Lemma summarize_parts_returned (self : TranscriptProcessor) (model : string)
    (chunks : list string) :
  forall (start : nat) (acc : list pyval) (w : world) (summaries : list pyval)
         (w1 : world),
    for_each (enumerate start chunks)
      (fun summaries '(i, chunk) =>
         print (SummarizingPart i) ;;
         part_summary <- model_response service self (summarize (instructions self))
                           chunk model ;;
         ret (summaries ++ [part_summary]))
      acc w = (Returned summaries, w1) ->
    exists parts,
      List.length parts = List.length chunks /\
      summaries = acc ++ parts /\
      exchanges w1 = exchanges w ++ part_answers self model chunks parts /\
      summary_md w1 = summary_md w.
Proof.
  induction chunks as [|chunk chunks IH]; intros start acc w summaries w1; simpl.
  - intros [= <- <-]. exists []. rewrite !app_nil_r. now repeat split.
  - unfold bind at 1. unfold bind at 1. unfold print at 1.
    unfold bind at 1. rewrite model_response_run. cbv zeta. simpl exchanges.
    destruct (service (exchanges w) _) as [what | content] eqn:Hanswer;
      [discriminate |].
    unfold ret at 1. intros Hrest.
    apply IH in Hrest as (parts & Hlen & -> & Hx & Hmd).
    exists (content :: parts). simpl in *.
    split; [now rewrite Hlen |]. split; [now rewrite <- app_assoc |].
    split; [| exact Hmd].
    rewrite Hx, <- app_assoc. reflexivity.
Qed.

Lemma strings_of_some (items : list pyval) (l : list string) :
  strings_of items = Some l -> items = map PyStr l.
Proof.
  revert l. induction items as [|[| s] items IH]; intros l; cbn [strings_of].
  - now intros [= <-].
  - discriminate.
  - destruct (strings_of items) as [l' |]; [| discriminate].
    intros [= <-]. cbn [map]. now rewrite (IH l').
Qed.

(** [join] answers only for a list of strings. *)
Lemma join_items_inr (sep : string) (items : list pyval) (joined : string) :
  join_items sep items = inr joined ->
  exists l, items = map PyStr l /\ joined = PyStr.join sep l.
Proof.
  unfold join_items. destruct (strings_of items) as [l |] eqn:Hl; [| discriminate].
  intros [= <-]. exists l. split; [now apply strings_of_some | reflexivity].
Qed.

Lemma part_answers_strings (self : TranscriptProcessor) (model : string)
    (chunks summaries : list string) :
  part_answers self model chunks (map PyStr summaries) =
    part_exchanges self model chunks summaries.
Proof.
  unfold part_answers, part_exchanges. revert summaries.
  induction chunks as [|chunk chunks IH]; intros [|s summaries]; cbn; try reflexivity.
  now rewrite IH.
Qed.

(** C3. Threshold boundary: for a model of the table whose context [C]
    is below 2^48 tokens, [summarize_transcript] takes the direct path,
    one remote call with the summarize instruction and the whole
    transcript, exactly when the length of the transcript is below
    [4 * C * 0.6], that is when [5 * len < 12 * C], and the chunked path
    otherwise; so a transcript of [floor (12 C / 5) - 1] characters goes
    the direct way and one of [ceil (12 C / 5)] characters or more goes
    the chunked way. *)
Theorem threshold_boundary (self : TranscriptProcessor) (transcript model : string)
    (profile : model_profile) (w : world) :
  models self !! model = Some profile ->
  0 <= context profile < 2 ^ 48 ->
  let C := context profile in
  let direct := 5 * PyStr.len transcript <? 12 * C in
  summarize_transcript service self transcript model w =
    (summary <- summary_branch service self (C * 4) transcript model direct ;;
     write_summary_md summary ;;
     ret PyNone) w /\
  (direct = true ->
   let rq := request_of self (summarize (instructions self)) transcript model in
   exchanges (snd (summarize_transcript service self transcript model w)) =
     exchanges w ++ [(rq, service (exchanges w) rq)]) /\
  (direct = false ->
   summary_branch service self (C * 4) transcript model direct =
     chunked_summary service self (C * 4) transcript model) /\
  (PyStr.len transcript = 12 * C / 5 - 1 -> direct = true) /\
  ((12 * C + 4) / 5 <= PyStr.len transcript -> direct = false).
Proof.
  intros Hmodel Hrange C direct.
  assert (Hctx : 0 <= C * 4 < 2 ^ 50).
  { change (2 ^ 50) with (2 ^ 48 * 4). unfold C. lia. }
  destruct (int_mul_0_6 (C * 4) Hctx) as (threshold & Hmul & Hlt).
  assert (Hrun : summarize_transcript service self transcript model w =
                 (summary <- summary_branch service self (C * 4) transcript model direct ;;
                  write_summary_md summary ;; ret PyNone) w).
  { rewrite summarize_transcript_run. unfold getitem. rewrite Hmodel.
    fold C. rewrite Hmul, Hlt.
    replace (3 * (C * 4)) with (12 * C) by lia. fold direct.
    unfold bind, write_summary_md, ret.
    now destruct (summary_branch service self (C * 4) transcript model direct w)
      as [[[| text] | e] w1]. }
  split; [exact Hrun |].
  split.
  { intros Hdirect rq. rewrite Hrun, Hdirect. unfold bind at 1.
    unfold summary_branch, direct_summary. rewrite model_response_run. cbv zeta.
    fold rq. now destruct (service (exchanges w) rq) as [what | [| content]]. }
  split; [now intros -> |].
  unfold direct. split.
  - intros Hlen. apply Z.ltb_lt. rewrite Hlen.
    pose proof (Z.mul_div_le (12 * C) 5 ltac:(lia)). lia.
  - intros Hlen. apply Z.ltb_ge.
    pose proof (Z.mul_succ_div_gt (12 * C + 4) 5 ltac:(lia)). lia.
Qed.

End Paths.

Lemma threshold_boundary_witness :
  let service := canned_service [inr (PyStr "note")] in
  let self := init None in
  let C := 16385 in
  let direct := 5 * PyStr.len "Hi." <? 12 * C in
  (models self !! default_model = Some (Profile C) /\ 0 <= C < 2 ^ 48) /\
  summarize_transcript service self "Hi." default_model fresh_world =
    (summary <- summary_branch service self (C * 4) "Hi." default_model direct ;;
     write_summary_md summary ;;
     ret PyNone) fresh_world /\
  (direct = true ->
   let rq := request_of self (summarize (instructions self)) "Hi." default_model in
   exchanges (snd (summarize_transcript service self "Hi." default_model fresh_world)) =
     exchanges fresh_world ++ [(rq, service (exchanges fresh_world) rq)]) /\
  (direct = false ->
   summary_branch service self (C * 4) "Hi." default_model direct =
     chunked_summary service self (C * 4) "Hi." default_model) /\
  (PyStr.len "Hi." = 12 * C / 5 - 1 -> direct = true) /\
  ((12 * C + 4) / 5 <= PyStr.len "Hi." -> direct = false).
Proof.
  intros service self C direct.
  assert (Hmodel : models self !! default_model = Some (Profile C)) by reflexivity.
  assert (Hrange : 0 <= C < 2 ^ 48) by (split; [unfold C; lia | reflexivity]).
  split; [split; assumption |].
  exact (threshold_boundary service self "Hi." default_model (Profile C) fresh_world
           Hmodel Hrange).
Defined.

(** ** The calls of the chunked path *)

Section ChunkedPath.

Variable service : list exchange -> request -> response.

Lemma part_exchanges_length (self : TranscriptProcessor) (model : string)
    (chunks summaries : list string) :
  List.length summaries = List.length chunks ->
  List.length (part_exchanges self model chunks summaries) = List.length chunks.
Proof.
  intros Hlen. unfold part_exchanges.
  rewrite length_map, length_combine. lia.
Qed.

Lemma chunked_summary_returned (self : TranscriptProcessor) (context_length : Z)
    (limit : PyFloat.float) (transcript model : string)
    (w : world) (final : pyval) (w' : world) :
  PyFloat.int_mul context_length PyFloat.lit_0_8 = inr limit ->
  chunked_summary service self context_length transcript model w = (Returned final, w') ->
  exists summaries,
    let chunks := map (PyStr.join ".") (groups limit transcript) in
    List.length summaries = List.length chunks /\
    exchanges w' =
      exchanges w ++ part_exchanges self model chunks summaries ++
      [(request_of self (fix_summary (instructions self))
          (PyStr.join (String newline EmptyString) summaries) model,
        inr final)] /\
    summary_md w' = summary_md w.
Proof.
  intros Hlimit. unfold chunked_summary.
  unfold bind at 1. rewrite (make_chunks_groups _ limit) by assumption.
  set (chunks := map (PyStr.join ".") (groups limit transcript)).
  destruct (print_sizes_run chunks 0 w) as (w1 & Hsizes & Hx1 & Hmd1).
  unfold bind at 1. rewrite Hsizes.
  unfold bind at 1.
  destruct (summarize_parts service self model chunks w1) as [[summaries | e] w2]
    eqn:Hparts; [| discriminate].
  apply summarize_parts_returned in Hparts as (parts & Hlen & Hsum & Hx2 & Hmd2).
  simpl in Hsum. subst summaries.
  unfold bind at 1, print at 1. unfold bind at 1.
  destruct (join_items (String newline EmptyString) parts) as [e | joined] eqn:Hjoin;
    [discriminate |].
  apply join_items_inr in Hjoin as (strings & -> & ->).
  rewrite part_answers_strings in Hx2. rewrite length_map in Hlen.
  cbn [lift ret]. rewrite model_response_run. cbv zeta.
  cbn [exchanges].
  destruct (service _ _) as [what | content]; [discriminate |].
  intros [= <- <-]. exists strings. cbv zeta.
  split; [exact Hlen |]. unfold after_exchanges. cbn [exchanges summary_md].
  split; [| congruence].
  rewrite Hx2, Hx1, <- app_assoc. reflexivity.
Qed.

(** C5. Chunked-path call structure: when the test of line 61 fails and
    the run returns, the transcript has been cut into chunks, N of them;
    the run has made N remote calls with the summarize instruction, one
    per chunk in chunk order, then one call with the fix_summary
    instruction whose user text is the N answers joined by newlines, N + 1
    calls in all; and what the last call answered is in [summary.md]. *)
Theorem chunked_call_structure (self : TranscriptProcessor)
    (transcript model : string) (profile : model_profile)
    (threshold : PyFloat.float) (w : world) (v : pyval) (w' : world) :
  models self !! model = Some profile ->
  PyFloat.int_mul (context profile * 4) PyFloat.lit_0_6 = inr threshold ->
  PyFloat.int_lt (PyStr.len transcript) threshold = false ->
  summarize_transcript service self transcript model w = (Returned v, w') ->
  exists chunks summaries final,
    make_chunks (context profile * 4) transcript w = (Returned chunks, w) /\
    List.length summaries = List.length chunks /\
    List.length (part_exchanges self model chunks summaries) = List.length chunks /\
    exchanges w' =
      exchanges w ++ part_exchanges self model chunks summaries ++
      [(request_of self (fix_summary (instructions self))
          (PyStr.join (String newline EmptyString) summaries) model,
        inr (PyStr final))] /\
    summary_md w' = Some final.
Proof.
  intros Hmodel Hmul Hlt.
  rewrite summarize_transcript_run. unfold getitem. rewrite Hmodel, Hmul, Hlt.
  unfold summary_branch.
  destruct (int_mul_succeeds _ _ PyFloat.lit_0_8 _ Hmul) as (limit & Hlimit).
  destruct (chunked_summary service self (context profile * 4) transcript model w)
    as [[[| final] | e] w1] eqn:Hrun; try discriminate.
  intros [= <- <-].
  destruct (chunked_summary_returned _ _ limit _ _ _ _ _ Hlimit Hrun)
    as (summaries & Hlen & Hx & Hmd).
  exists (map (PyStr.join ".") (groups limit transcript)), summaries, final.
  split; [now apply make_chunks_groups |].
  split; [exact Hlen |].
  split; [now apply part_exchanges_length |].
  split; [exact Hx | reflexivity].
Qed.

End ChunkedPath.

Lemma chunked_call_structure_witness :
  exists chunks summaries final,
    make_chunks (2 * 4) "aaaaaaa.b.c" fresh_world = (Returned chunks, fresh_world) /\
    List.length summaries = List.length chunks /\
    List.length (part_exchanges pocket_processor "pocket" chunks summaries) =
      List.length chunks /\
    exchanges (snd (summarize_transcript
                      (canned_service [inr (PyStr "s1"); inr (PyStr "s2"); inr (PyStr "all")])
                      pocket_processor "aaaaaaa.b.c" "pocket" fresh_world)) =
      exchanges fresh_world ++ part_exchanges pocket_processor "pocket" chunks summaries ++
      [(request_of pocket_processor (fix_summary (instructions pocket_processor))
          (PyStr.join (String newline EmptyString) summaries) "pocket",
        inr (PyStr final))] /\
    summary_md (snd (summarize_transcript
                       (canned_service [inr (PyStr "s1"); inr (PyStr "s2"); inr (PyStr "all")])
                       pocket_processor "aaaaaaa.b.c" "pocket" fresh_world)) = Some final.
Proof.
  apply (chunked_call_structure
           (canned_service [inr (PyStr "s1"); inr (PyStr "s2"); inr (PyStr "all")])
           pocket_processor "aaaaaaa.b.c" "pocket" (Profile 2)
           (S754_finite false 5404319552844595 (-50)) fresh_world PyNone).
  - vm_compute. reflexivity.
  - vm_compute. reflexivity.
  - vm_compute. reflexivity.
  - vm_compute. reflexivity.
Defined.

(** ** Remarks *)

(** Both models of the table [__init__] builds are within the range of
    [threshold_boundary] and [chunk_size_bound]. *)
Lemma init_models_in_range (key : option string) (model : string)
    (profile : model_profile) :
  models (init key) !! model = Some profile ->
  0 <= context profile < 2 ^ 48 /\ 0 <= context profile * 4 < 2 ^ 50.
Proof.
  unfold init. cbn [models]. intros Hlookup.
  apply lookup_insert_Some in Hlookup as [[_ <-] | [_ Hlookup]].
  { cbn [context]. split; (split; [lia | reflexivity]). }
  apply lookup_insert_Some in Hlookup as [[_ <-] | [_ Hlookup]].
  { cbn [context]. split; (split; [lia | reflexivity]). }
  now rewrite lookup_empty in Hlookup.
Qed.

(** Far beyond that range the double [c * 0.6] is no longer on the same
    side of every int as [3c/5]. *)
Example threshold_beyond_range :
  exists f,
    PyFloat.int_mul 8881885772325252 PyFloat.lit_0_6 = inr f /\
    PyFloat.int_lt 5329131463395151 f = false /\
    (5 * 5329131463395151 <? 3 * 8881885772325252) = true.
Proof. eexists. split; [vm_compute; reflexivity |]. split; reflexivity. Qed.

(** Three short sentences and a context of no characters: the second
    sentence and the empty piece after the last period close a chunk each
    and are lost; two chunks are made. *)
Example three_sentences_two_chunks :
  sentences_of "A. B. C." = ["A"; " B"; " C"; EmptyString] /\
  make_chunks 0 "A. B. C." fresh_world = (Returned ["A"; " C"], fresh_world).
Proof. split; reflexivity. Qed.

(* ===================================================================== *)
(** * Part III: further properties of the code                            *)
(* ===================================================================== *)

(** ** [split] and [join] *)

Lemma append_cons (c : ascii) (s t : string) :
  (String c s ++ t)%string = String c (s ++ t).
Proof. reflexivity. Qed.

Lemma append_empty_r (s : string) : (s ++ EmptyString)%string = s.
Proof.
  induction s as [|c s IH]; [reflexivity |]. now rewrite append_cons, IH.
Qed.

Lemma append_assoc (s t u : string) : ((s ++ t) ++ u)%string = (s ++ t ++ u)%string.
Proof.
  induction s as [|c s IH]; [reflexivity |]. now rewrite !append_cons, IH.
Qed.

Lemma join_cons (sep x y : string) (l : list string) :
  PyStr.join sep (x :: y :: l) = (x ++ sep ++ PyStr.join sep (y :: l))%string.
Proof. reflexivity. Qed.

(** [sep.join(s.split(sep)) == s] *)
Lemma join_split (sep : ascii) (s : string) :
  PyStr.join (String sep EmptyString) (PyStr.split sep s) = s.
Proof.
  induction s as [|c s IH]; [reflexivity |]. cbn [PyStr.split].
  pose proof (split_nonempty sep s) as Hne.
  destruct (PyStr.split sep s) as [|piece pieces]; [contradiction |].
  destruct (Ascii.eqb_spec c sep) as [-> | Hc].
  - rewrite join_cons, IH. reflexivity.
  - destruct pieces as [|piece' pieces].
    + cbn in IH |- *. now rewrite IH.
    + rewrite join_cons, append_cons. rewrite join_cons in IH. now rewrite IH.
Qed.

Lemma split_pieces_free (sep : ascii) (s piece : string) :
  In piece (PyStr.split sep s) -> ~ In sep (list_ascii_of_string piece).
Proof.
  revert piece. induction s as [|c s IH]; intros piece; cbn [PyStr.split].
  - intros [<- | []]. simpl. tauto.
  - pose proof (split_nonempty sep s) as Hne.
    destruct (PyStr.split sep s) as [|first rest]; [contradiction |].
    destruct (Ascii.eqb_spec c sep) as [-> | Hc].
    + intros [<- | Hin]; [simpl; tauto | now apply IH].
    + intros [<- | Hin].
      * simpl. intros [Heq | Hin]; [congruence |]. revert Hin. apply IH. now left.
      * apply IH. now right.
Qed.

(** [sep.join(pieces).split(sep) == pieces], for pieces free of [sep]. *)
Lemma split_join (sep : ascii) (pieces : list string) :
  pieces <> [] ->
  Forall (fun piece => ~ In sep (list_ascii_of_string piece)) pieces ->
  PyStr.split sep (PyStr.join (String sep EmptyString) pieces) = pieces.
Proof.
  induction pieces as [|x pieces IH]; [congruence |]. intros _ Hfree.
  apply Forall_cons in Hfree as [Hx Hfree].
  destruct pieces as [|y pieces].
  - cbn. now apply split_no_sep.
  - rewrite join_cons. change (String sep EmptyString ++ ?t)%string with (String sep t).
    rewrite split_app_sep by assumption. f_equal. now apply IH.
Qed.

Lemma total_len_nonneg (l : list string) : 0 <= total_len l.
Proof.
  unfold total_len, PyStr.len. induction l as [|x l IH]; simpl; lia.
Qed.

(** The characters of a string are those of its pieces and one separator
    between two pieces. *)
Lemma len_join (pieces : list string) :
  pieces <> [] ->
  PyStr.len (PyStr.join "." pieces) =
    total_len pieces + Z.of_nat (List.length pieces) - 1.
Proof.
  induction pieces as [|x pieces IH]; [congruence |]. intros _.
  destruct pieces as [|y pieces].
  - cbn. unfold total_len. simpl. lia.
  - rewrite join_cons, !len_app, IH by discriminate.
    unfold total_len. cbn [fold_right List.length]. change (PyStr.len ".") with 1. lia.
Qed.

Lemma len_split (s : string) :
  PyStr.len s =
    total_len (PyStr.split dot s) + Z.of_nat (List.length (PyStr.split dot s)) - 1.
Proof.
  rewrite <- (join_split dot s) at 1. apply len_join, split_nonempty.
Qed.

Lemma join_app (sep : string) (a b : list string) :
  a <> [] -> b <> [] ->
  PyStr.join sep (a ++ b) = (PyStr.join sep a ++ sep ++ PyStr.join sep b)%string.
Proof.
  intros Ha Hb. induction a as [|x a IH]; [congruence |].
  destruct a as [|x' a].
  - destruct b as [|y b]; [congruence |]. reflexivity.
  - change ((x :: x' :: a) ++ b) with (x :: x' :: (a ++ b)).
    rewrite !join_cons. change (x' :: a ++ b) with ((x' :: a) ++ b).
    rewrite IH by discriminate. now rewrite !append_assoc.
Qed.

(** The join of a run of consecutive pieces is a run of consecutive
    characters of the join of all. *)
Lemma join_infix (sep : string) (before run after : list string) :
  substring (PyStr.join sep run) (PyStr.join sep (before ++ run ++ after)).
Proof.
  destruct run as [|r run].
  { exists EmptyString, (PyStr.join sep (before ++ after)). reflexivity. }
  set (mid := r :: run). assert (Hmid : mid <> []) by discriminate.
  destruct before as [|b before], after as [|a after].
  - exists EmptyString, EmptyString. rewrite app_nil_r. cbn [app].
    now rewrite append_empty_r.
  - exists EmptyString, (sep ++ PyStr.join sep (a :: after))%string. cbn [app].
    now rewrite join_app by (assumption || discriminate).
  - exists (PyStr.join sep (b :: before) ++ sep)%string, EmptyString.
    rewrite app_nil_r, join_app by (assumption || discriminate).
    now rewrite append_empty_r, append_assoc.
  - exists (PyStr.join sep (b :: before) ++ sep)%string,
           (sep ++ PyStr.join sep (a :: after))%string.
    rewrite join_app by (try discriminate; destruct mid; discriminate).
    rewrite (join_app sep mid) by (assumption || discriminate).
    now rewrite !append_assoc.
Qed.

(** ** What the chunking loop keeps, and what it loses *)

Section Grouping.

Variable limit : PyFloat.float.

Lemma flush_groups_concat (g : grouping) :
  concat (flush_groups g) = concat (closed g) ++ pending g.
Proof.
  unfold flush_groups. destruct (pending g) as [|s l].
  - now rewrite app_nil_r.
  - rewrite concat_app. cbn [concat]. now rewrite app_nil_r.
Qed.

Lemma flush_groups_length (g : grouping) :
  List.length (flush_groups g) = group_count g.
Proof.
  unfold flush_groups, group_count. destruct (pending g) as [|s l]; [lia |].
  rewrite length_app. reflexivity.
Qed.

(** The sentences kept are a subsequence of the sentences seen, and each
    sentence not kept has closed a chunk. *)
Lemma group_all_kept (sentences : list string) :
  forall g, exists kept,
    concat (closed (group_all limit sentences g)) ++ pending (group_all limit sentences g)
      = (concat (closed g) ++ pending g) ++ kept /\
    sublist kept sentences /\
    (List.length sentences + List.length (closed g) =
     List.length kept + List.length (closed (group_all limit sentences g)))%nat.
Proof.
  unfold group_all.
  induction sentences as [|sentence sentences IH]; intros g; cbn [fold_left].
  - exists []. rewrite app_nil_r. split; [reflexivity |]. split; [constructor | reflexivity].
  - destruct (IH (group_sentence limit g sentence)) as (kept & Hflat & Hsub & Hlen).
    unfold group_sentence in Hflat, Hlen |- *.
    destruct (PyFloat.int_gt (pending_length g) limit); cbn [closed pending] in Hflat, Hlen.
    + exists kept. rewrite Hflat, concat_app. cbn [concat].
      rewrite !app_nil_r. split; [reflexivity |].
      split; [now constructor |]. rewrite length_app in Hlen. cbn [List.length] in *. lia.
    + exists (sentence :: kept). rewrite Hflat, <- !app_assoc.
      split; [reflexivity |]. split; [now constructor |]. cbn [List.length]. lia.
Qed.

Lemma group_sentence_count (g : grouping) (sentence : string) :
  (1 <= group_count (group_sentence limit g sentence) <= group_count g + 1)%nat.
Proof.
  unfold group_sentence, group_count.
  destruct (PyFloat.int_gt (pending_length g) limit); cbn [closed pending].
  - rewrite length_app. cbn [List.length]. destruct (pending g); lia.
  - destruct (pending g); cbn [app]; lia.
Qed.

Lemma group_all_count (sentences : list string) :
  forall g,
    (group_count (group_all limit sentences g) <= group_count g + List.length sentences)%nat /\
    (sentences <> [] -> 1 <= group_count (group_all limit sentences g))%nat.
Proof.
  unfold group_all.
  induction sentences as [|sentence sentences IH]; intros g; cbn [fold_left List.length].
  - split; [lia | congruence].
  - destruct (IH (group_sentence limit g sentence)) as [Hle Hge].
    pose proof (group_sentence_count g sentence) as Hstep.
    split; [lia |]. intros _.
    destruct sentences as [|s' sentences]; [cbn [fold_left]; lia |].
    apply Hge. discriminate.
Qed.

Lemma group_sentence_runs (seen : list string) (g : grouping) (sentence : string) :
  in_runs seen g -> in_runs (seen ++ [sentence]) (group_sentence limit g sentence).
Proof.
  intros [Hclosed [before Hpending]].
  assert (Hclosed' :
            Forall (fun group => exists before after,
                        seen ++ [sentence] = before ++ group ++ after) (closed g)).
  { eapply Forall_impl; [exact Hclosed |].
    intros group (b & a & ->). exists b, (a ++ [sentence]). now rewrite <- !app_assoc. }
  unfold group_sentence, in_runs.
  destruct (PyFloat.int_gt (pending_length g) limit); cbn [closed pending].
  - split.
    + apply Forall_app. split; [exact Hclosed' |]. constructor; [| constructor].
      exists before, [sentence]. now rewrite Hpending, <- app_assoc.
    + exists (seen ++ [sentence]). now rewrite app_nil_r.
  - split; [exact Hclosed' |]. exists before. now rewrite Hpending, <- app_assoc.
Qed.

Lemma group_all_runs (sentences : list string) :
  forall seen g,
    in_runs seen g -> in_runs (seen ++ sentences) (group_all limit sentences g).
Proof.
  unfold group_all.
  induction sentences as [|sentence sentences IH]; intros seen g Hruns; cbn [fold_left].
  - now rewrite app_nil_r.
  - replace (seen ++ sentence :: sentences) with ((seen ++ [sentence]) ++ sentences)
      by now rewrite <- app_assoc.
    apply IH. now apply group_sentence_runs.
Qed.

Lemma groups_runs (transcript : string) :
  Forall (fun group => exists before after,
              PyStr.split dot transcript = before ++ group ++ after)
         (groups limit transcript).
Proof.
  unfold groups.
  destruct (group_all_runs (PyStr.split dot transcript) [] empty_grouping)
    as [Hclosed [before Hpending]].
  { split; [constructor | now exists []]. }
  cbn [app] in Hclosed, Hpending.
  unfold flush_groups.
  destruct (pending (group_all limit (PyStr.split dot transcript) empty_grouping))
    as [|s l] eqn:Hp; [exact Hclosed |].
  apply Forall_app. split; [exact Hclosed |]. constructor; [| constructor].
  exists before, []. now rewrite app_nil_r.
Qed.

(** While the count stays within the limit no chunk is closed. *)
Lemma group_all_within (sentences : list string) :
  forall g,
    (forall n, 0 <= n <= pending_length g + total_len sentences ->
               PyFloat.int_gt n limit = false) ->
    0 <= pending_length g ->
    group_all limit sentences g =
      {| closed := closed g;
         pending := pending g ++ sentences;
         pending_length := pending_length g + total_len sentences |}.
Proof.
  unfold group_all.
  induction sentences as [|sentence sentences IH]; intros g Hfit Hpos; cbn [fold_left].
  - destruct g. cbn. now rewrite app_nil_r, Z.add_0_r.
  - pose proof (total_len_nonneg sentences) as Hrest.
    assert (Hs : 0 <= PyStr.len sentence) by (unfold PyStr.len; lia).
    change (total_len (sentence :: sentences))
      with (PyStr.len sentence + total_len sentences) in Hfit |- *.
    unfold group_sentence at 2. rewrite Hfit by lia.
    rewrite IH; cbn [closed pending pending_length]; [| intros n Hn; apply Hfit; lia | lia].
    rewrite <- app_assoc. f_equal. lia.
Qed.

End Grouping.

(** ** The chunks [make_chunks] returns *)

Lemma make_chunks_returned (context_length : Z) (transcript : string)
    (w : world) (chunks : list string) (w' : world) :
  make_chunks context_length transcript w = (Returned chunks, w') ->
  exists limit,
    PyFloat.int_mul context_length PyFloat.lit_0_8 = inr limit /\
    chunks = map (PyStr.join ".") (groups limit transcript) /\
    w' = w.
Proof.
  destruct (PyFloat.int_mul context_length PyFloat.lit_0_8) as [e | limit] eqn:Hmul.
  - unfold make_chunks. pose proof (split_nonempty dot transcript) as Hne.
    destruct (PyStr.split dot transcript) as [|s rest]; [contradiction |].
    cbn [for_each]. unfold bind, chunk_sentence. rewrite Hmul. discriminate.
  - rewrite (make_chunks_groups _ limit) by assumption.
    intros [= <- <-]. now exists limit.
Qed.

Lemma groups_kept (limit : PyFloat.float) (transcript : string) :
  sublist (concat (groups limit transcript)) (PyStr.split dot transcript) /\
  (List.length (PyStr.split dot transcript) =
     List.length (concat (groups limit transcript)) + List.length (groups limit transcript)
   \/
   List.length (PyStr.split dot transcript) + 1 =
     List.length (concat (groups limit transcript)) + List.length (groups limit transcript))%nat.
Proof.
  unfold groups.
  destruct (group_all_kept limit (PyStr.split dot transcript) empty_grouping)
    as (kept & Hflat & Hsub & Hlen).
  cbn [closed pending empty_grouping concat app List.length] in Hflat, Hlen.
  rewrite flush_groups_concat, flush_groups_length, Hflat.
  split; [exact Hsub |].
  unfold group_count.
  destruct (pending (group_all limit (PyStr.split dot transcript) empty_grouping)); lia.
Qed.

(** The sentences of the chunks are the sentences grouped, when no group
    is empty. *)
Lemma chunk_sentences (gs : list (list string)) :
  Forall (fun g => g <> [] /\ Forall (fun s => ~ In dot (list_ascii_of_string s)) g) gs ->
  concat (map sentences_of (map (PyStr.join ".") gs)) = concat gs.
Proof.
  induction 1 as [|g gs [Hne Hfree] _ IH]; [reflexivity |].
  cbn [map concat]. rewrite IH. f_equal.
  now apply (split_join dot).
Qed.

Lemma groups_well_formed (limit : PyFloat.float) (transcript : string) :
  PyFloat.int_gt 0 limit = false ->
  Forall (fun g => g <> [] /\ Forall (fun s => ~ In dot (list_ascii_of_string s)) g)
         (groups limit transcript).
Proof.
  intros Hzero.
  pose proof (groups_bounded limit transcript Hzero) as Hb.
  destruct (groups_kept limit transcript) as [Hsub _].
  apply Forall_forall. intros g Hg. split.
  - rewrite Forall_forall in Hb. destruct (Hb g Hg) as (body & last & -> & _).
    now destruct body.
  - apply Forall_forall. intros s Hs.
    apply (split_pieces_free dot transcript).
    apply list_elem_of_In. eapply sublist_subseteq; [exact Hsub |].
    apply list_elem_of_In, in_concat. exists g. split; now apply list_elem_of_In.
Qed.

(** What [make_chunks] returns, for a context in range: each chunk is
    the join of a group, the sentences of the chunk are the group, the
    group is a run of consecutive sentences of the transcript, and its
    sentences before the last one count at most eight tenths of the
    context. *)
Lemma chunks_of_groups (context_length : Z) (transcript : string) (w : world) :
  0 <= context_length < 2 ^ 50 ->
  exists gs,
    make_chunks context_length transcript w =
      (Returned (map (PyStr.join ".") gs), w) /\
    Forall (fun g =>
              sentences_of (PyStr.join "." g) = g /\
              (exists before after, sentences_of transcript = before ++ g ++ after) /\
              exists body last,
                g = body ++ [last] /\ 5 * total_len body <= 4 * context_length)
           gs.
Proof.
  intros Hrange.
  destruct (int_mul_0_8 context_length Hrange) as (limit & Hlimit & Hgt).
  assert (Hzero : PyFloat.int_gt 0 limit = false) by (rewrite Hgt; apply Z.ltb_ge; lia).
  exists (groups limit transcript).
  split; [now apply make_chunks_groups |].
  pose proof (groups_bounded limit transcript Hzero) as Hb.
  pose proof (groups_well_formed limit transcript Hzero) as Hwf.
  pose proof (groups_runs limit transcript) as Hruns.
  rewrite Forall_forall in Hb, Hwf, Hruns. apply Forall_forall. intros g Hg.
  destruct (Hwf g Hg) as [Hne Hfree].
  split; [now apply (split_join dot) |].
  split; [now apply Hruns |].
  destruct (Hb g Hg) as (body & last & -> & Hbody). exists body, last.
  split; [reflexivity |]. fold (total_len body) in Hbody.
  rewrite Hgt in Hbody. now apply Z.ltb_ge in Hbody.
Qed.

(** C6. Chunk size bound: for a context of less than 2^50 characters,
    [make_chunks] returns, and of every chunk it returns the sentences are
    a run of consecutive sentences of the transcript whose character
    count, as the chunker keeps it, is at most eight tenths of the context
    plus the length of the last sentence of the chunk: the sentences of
    the chunk before its last one count at most [0.8 * context_length]. *)
Theorem chunk_size_bound (context_length : Z) (transcript : string) (w : world) :
  0 <= context_length < 2 ^ 50 ->
  exists chunks,
    make_chunks context_length transcript w = (Returned chunks, w) /\
    Forall (fun chunk =>
              within_limit context_length (sentences_of chunk) /\
              exists before after,
                sentences_of transcript = before ++ sentences_of chunk ++ after)
           chunks.
Proof.
  intros Hrange.
  destruct (chunks_of_groups context_length transcript w Hrange) as (gs & Hrun & Hgs).
  exists (map (PyStr.join ".") gs). split; [exact Hrun |].
  apply Forall_map. eapply Forall_impl; [exact Hgs |].
  intros g (Hsplit & Hrun_of & body & last & -> & Hbody). cbn beta.
  rewrite Hsplit. split; [| exact Hrun_of].
  exists body, last. split; [reflexivity |]. split; [apply total_len_app | exact Hbody].
Qed.

(** X1. The sentences of the chunks, in chunk order, are a subsequence of
    the sentences of the transcript: no sentence is invented, repeated or
    moved. *)
Theorem chunks_subsequence (context_length : Z) (transcript : string) (w : world) :
  0 <= context_length < 2 ^ 50 ->
  exists chunks,
    make_chunks context_length transcript w = (Returned chunks, w) /\
    sublist (concat (map sentences_of chunks)) (sentences_of transcript).
Proof.
  intros Hrange.
  destruct (int_mul_0_8 context_length Hrange) as (limit & Hlimit & Hgt).
  assert (Hzero : PyFloat.int_gt 0 limit = false) by (rewrite Hgt; apply Z.ltb_ge; lia).
  exists (map (PyStr.join ".") (groups limit transcript)).
  split; [now apply make_chunks_groups |].
  rewrite chunk_sentences by now apply groups_well_formed.
  apply groups_kept.
Qed.

(** X2. Every chunk but perhaps the last costs one sentence: with N
    chunks, N or N - 1 sentences of the transcript are in no chunk. *)
Theorem sentences_lost (context_length : Z) (transcript : string) (w : world) :
  0 <= context_length < 2 ^ 50 ->
  exists chunks,
    make_chunks context_length transcript w = (Returned chunks, w) /\
    (List.length (sentences_of transcript) =
       List.length (concat (map sentences_of chunks)) + List.length chunks
     \/
     List.length (sentences_of transcript) + 1 =
       List.length (concat (map sentences_of chunks)) + List.length chunks)%nat.
Proof.
  intros Hrange.
  destruct (int_mul_0_8 context_length Hrange) as (limit & Hlimit & Hgt).
  assert (Hzero : PyFloat.int_gt 0 limit = false) by (rewrite Hgt; apply Z.ltb_ge; lia).
  exists (map (PyStr.join ".") (groups limit transcript)).
  split; [now apply make_chunks_groups |].
  rewrite chunk_sentences by now apply groups_well_formed.
  rewrite length_map. apply groups_kept.
Qed.

(** X3. When [make_chunks] returns, the world is as it was and there is
    at least one chunk, and at most one chunk per sentence. *)
Theorem chunk_count (context_length : Z) (transcript : string)
    (w : world) (chunks : list string) (w' : world) :
  make_chunks context_length transcript w = (Returned chunks, w') ->
  w' = w /\
  (1 <= List.length chunks <= List.length (sentences_of transcript))%nat.
Proof.
  intros Hrun.
  apply make_chunks_returned in Hrun as (limit & _ & -> & ->).
  split; [reflexivity |]. rewrite length_map. unfold groups.
  rewrite flush_groups_length.
  destruct (group_all_count limit (PyStr.split dot transcript) empty_grouping)
    as [Hle Hge].
  specialize (Hge (split_nonempty dot transcript)).
  cbn in Hle. lia.
Qed.

Lemma groups_single (context_length : Z) (limit : PyFloat.float) (transcript : string) :
  (forall n, PyFloat.int_gt n limit = (4 * context_length <? 5 * n)) ->
  5 * PyStr.len transcript <= 4 * context_length ->
  map (PyStr.join ".") (groups limit transcript) = [transcript].
Proof.
  intros Hgt Hfits. unfold groups.
  pose proof (len_split transcript) as Hlen.
  pose proof (split_nonempty dot transcript) as Hne.
  rewrite group_all_within.
  - cbn [empty_grouping closed pending app]. unfold flush_groups. cbn [pending closed].
    destruct (PyStr.split dot transcript) as [|s rest] eqn:Hsplit; [contradiction |].
    cbn [app map]. rewrite <- Hsplit.
    change (PyStr.join ".") with (PyStr.join (String dot EmptyString)).
    now rewrite join_split.
  - cbn [empty_grouping pending_length]. intros n Hn. rewrite Hgt. apply Z.ltb_ge.
    destruct (PyStr.split dot transcript); [contradiction |].
    cbn [List.length] in Hlen. lia.
  - reflexivity.
Qed.

(** X4. A transcript of at most eight tenths of the context is its own
    and only chunk. *)
Theorem single_chunk (context_length : Z) (transcript : string) (w : world) :
  0 <= context_length < 2 ^ 50 ->
  5 * PyStr.len transcript <= 4 * context_length ->
  make_chunks context_length transcript w = (Returned [transcript], w).
Proof.
  intros Hrange Hfits.
  destruct (int_mul_0_8 context_length Hrange) as (limit & Hlimit & Hgt).
  rewrite (make_chunks_groups _ limit) by assumption.
  now rewrite (groups_single context_length).
Qed.

(** X5. Every chunk is a run of consecutive characters of the
    transcript. *)
Theorem chunk_is_substring (context_length : Z) (transcript : string)
    (w : world) (chunks : list string) (w' : world) :
  make_chunks context_length transcript w = (Returned chunks, w') ->
  Forall (fun chunk => substring chunk transcript) chunks.
Proof.
  intros Hrun.
  apply make_chunks_returned in Hrun as (limit & _ & -> & _).
  apply Forall_map. eapply Forall_impl; [apply groups_runs |].
  intros g (before & after & Hsplit). cbn beta.
  rewrite <- (join_split dot transcript) at 1. rewrite Hsplit.
  apply (join_infix (String dot EmptyString)).
Qed.

(** X6. The chunk sent is longer than the count the chunker keeps: the
    periods put back by [join] are not counted, one for each sentence of
    the chunk but the last. *)
Theorem chunk_true_length (context_length : Z) (transcript : string) (w : world) :
  0 <= context_length < 2 ^ 50 ->
  exists chunks,
    make_chunks context_length transcript w = (Returned chunks, w) /\
    Forall (fun chunk =>
              exists body last,
                sentences_of chunk = body ++ [last] /\
                5 * total_len body <= 4 * context_length /\
                PyStr.len chunk =
                  total_len body + Z.of_nat (List.length body) + PyStr.len last)
           chunks.
Proof.
  intros Hrange.
  destruct (chunks_of_groups context_length transcript w Hrange) as (gs & Hrun & Hgs).
  exists (map (PyStr.join ".") gs). split; [exact Hrun |].
  apply Forall_map. eapply Forall_impl; [exact Hgs |].
  intros g (Hsplit & _ & body & last & -> & Hbody). cbn beta.
  exists body, last. split; [exact Hsplit |]. split; [exact Hbody |].
  rewrite len_join by now destruct body.
  rewrite total_len_app, length_app. cbn [List.length]. lia.
Qed.

Lemma chunk_size_bound_witness :
  exists chunks,
    make_chunks 8 "aaaaaaa.b.c" fresh_world = (Returned chunks, fresh_world) /\
    Forall (fun chunk =>
              within_limit 8 (sentences_of chunk) /\
              exists before after,
                sentences_of "aaaaaaa.b.c" = before ++ sentences_of chunk ++ after)
           chunks.
Proof.
  apply (chunk_size_bound 8 "aaaaaaa.b.c" fresh_world).
  split; [lia | reflexivity].
Defined.

Lemma chunks_subsequence_witness :
  exists chunks,
    make_chunks 8 "aaaaaaa.b.c" fresh_world = (Returned chunks, fresh_world) /\
    sublist (concat (map sentences_of chunks)) (sentences_of "aaaaaaa.b.c").
Proof.
  apply (chunks_subsequence 8 "aaaaaaa.b.c" fresh_world).
  split; [lia | reflexivity].
Defined.

Lemma sentences_lost_witness :
  exists chunks,
    make_chunks 8 "aaaaaaa.b.c" fresh_world = (Returned chunks, fresh_world) /\
    (List.length (sentences_of "aaaaaaa.b.c") =
       List.length (concat (map sentences_of chunks)) + List.length chunks
     \/
     List.length (sentences_of "aaaaaaa.b.c") + 1 =
       List.length (concat (map sentences_of chunks)) + List.length chunks)%nat.
Proof.
  apply (sentences_lost 8 "aaaaaaa.b.c" fresh_world).
  split; [lia | reflexivity].
Defined.

Lemma chunk_count_witness :
  fresh_world = fresh_world /\
  (1 <= List.length ["aaaaaaa"; "c"] <= List.length (sentences_of "aaaaaaa.b.c"))%nat.
Proof.
  apply (chunk_count 8 "aaaaaaa.b.c" fresh_world ["aaaaaaa"; "c"] fresh_world).
  reflexivity.
Defined.

Lemma single_chunk_witness :
  make_chunks 8 "aa.bb" fresh_world = (Returned ["aa.bb"], fresh_world).
Proof.
  apply (single_chunk 8 "aa.bb" fresh_world).
  - split; [lia | reflexivity].
  - vm_compute. discriminate.
Defined.

Lemma chunk_is_substring_witness :
  Forall (fun chunk => substring chunk "aaaaaaa.b.c") ["aaaaaaa"; "c"].
Proof.
  apply (chunk_is_substring 8 "aaaaaaa.b.c" fresh_world ["aaaaaaa"; "c"] fresh_world).
  reflexivity.
Defined.

Lemma chunk_true_length_witness :
  exists chunks,
    make_chunks 8 "a.bb.ccc.d" fresh_world = (Returned chunks, fresh_world) /\
    Forall (fun chunk =>
              exists body last,
                sentences_of chunk = body ++ [last] /\
                5 * total_len body <= 4 * 8 /\
                PyStr.len chunk =
                  total_len body + Z.of_nat (List.length body) + PyStr.len last)
           chunks.
Proof.
  apply (chunk_true_length 8 "a.bb.ccc.d" fresh_world).
  split; [lia | reflexivity].
Defined.

(** ** Runs of [summarize_transcript], further *)

Lemma calls_all_ret {A} (P : request -> Prop) (a : A) : calls_all P (ret a).
Proof. intros w. exists []. cbn. rewrite app_nil_r. now split. Qed.

Lemma calls_all_lift {A} (P : request -> Prop) (x : exn + A) : calls_all P (lift x).
Proof. intros w. exists []. destruct x; cbn; rewrite app_nil_r; now split. Qed.

Lemma calls_all_print (P : request -> Prop) (n : notice) : calls_all P (print n).
Proof. intros w. exists []. cbn. rewrite app_nil_r. now split. Qed.

Lemma calls_all_bind {A B} (P : request -> Prop) (c : M A) (k : A -> M B) :
  calls_all P c -> (forall a, calls_all P (k a)) -> calls_all P (bind c k).
Proof.
  intros Hc Hk w. unfold bind.
  destruct (Hc w) as (new1 & Hx1 & HP1).
  destruct (c w) as [[a | e] w1]; cbn [fst snd] in *.
  - destruct (Hk a w1) as (new2 & Hx2 & HP2).
    exists (new1 ++ new2). rewrite Hx2, Hx1, app_assoc. split; [reflexivity |].
    now apply Forall_app.
  - now exists new1.
Qed.

Lemma calls_all_for_each {A S} (P : request -> Prop) (body : S -> A -> M S)
    (l : list A) :
  (forall acc x, calls_all P (body acc x)) ->
  forall acc, calls_all P (for_each l body acc).
Proof.
  intros Hbody. induction l as [|x l IH]; intros acc; cbn [for_each].
  - apply calls_all_ret.
  - apply calls_all_bind; [apply Hbody | exact IH].
Qed.

Section MoreRuns.

Variable service : list exchange -> request -> response.

Lemma calls_all_model_response (P : request -> Prop) (self : TranscriptProcessor)
    (instructions prompt model : string) :
  P (request_of self instructions prompt model) ->
  calls_all P (model_response service self instructions prompt model).
Proof.
  intros HP w. rewrite model_response_run. cbv zeta.
  set (rq := request_of _ _ _ _) in *.
  exists [(rq, service (exchanges w) rq)].
  destruct (service (exchanges w) rq); cbn; (split; [reflexivity |]);
    now repeat constructor.
Qed.

Lemma calls_all_summary_branch (self : TranscriptProcessor) (context_length : Z)
    (transcript model : string) (direct : bool) :
  calls_all (summarize_request self model)
    (summary_branch service self context_length transcript model direct).
Proof.
  assert (Hs : forall prompt,
             summarize_request self model
               (request_of self (summarize (instructions self)) prompt model)).
  { intros prompt. repeat split. now left. }
  assert (Hf : forall prompt,
             summarize_request self model
               (request_of self (fix_summary (instructions self)) prompt model)).
  { intros prompt. repeat split. now right. }
  destruct direct; unfold summary_branch, direct_summary, chunked_summary.
  - now apply calls_all_model_response.
  - apply calls_all_bind.
    { unfold make_chunks. apply calls_all_bind.
      - apply calls_all_for_each. intros; apply calls_all_lift.
      - intros; apply calls_all_ret. }
    intros chunks. apply calls_all_bind.
    { apply calls_all_for_each. intros _ [i ch]. apply calls_all_print. }
    intros _. apply calls_all_bind.
    { unfold summarize_parts. apply calls_all_for_each. intros acc [i chunk].
      apply calls_all_bind; [apply calls_all_print | intros _].
      apply calls_all_bind; [now apply calls_all_model_response |].
      intros; apply calls_all_ret. }
    intros summaries. apply calls_all_bind; [apply calls_all_print | intros _].
    apply calls_all_bind; [apply calls_all_lift | intros joined].
    now apply calls_all_model_response.
Qed.

(** The run of [summarize_transcript] for a model of the table whose
    context is in range, by the length of the transcript. *)
Lemma summarize_transcript_by_length (self : TranscriptProcessor)
    (transcript model : string) (profile : model_profile) (w : world) :
  models self !! model = Some profile ->
  0 <= context profile < 2 ^ 48 ->
  summarize_transcript service self transcript model w =
    match summary_branch service self (context profile * 4) transcript model
            (5 * PyStr.len transcript <? 12 * context profile) w with
    | (Returned (PyStr text), w1) =>
        (Returned PyNone,
         {| exchanges := exchanges w1; stdout := stdout w1; summary_md := Some text |})
    | (Returned PyNone, w1) =>
        (Raised TypeError,
         {| exchanges := exchanges w1;
            stdout := stdout w1;
            summary_md := Some EmptyString |})
    | (Raised e, w1) => (Raised e, w1)
    end.
Proof.
  intros Hmodel Hrange.
  assert (Hctx : 0 <= context profile * 4 < 2 ^ 50).
  { change (2 ^ 50) with (2 ^ 48 * 4). lia. }
  destruct (int_mul_0_6 _ Hctx) as (threshold & Hmul & Hlt).
  rewrite summarize_transcript_run. unfold getitem. rewrite Hmodel, Hmul, Hlt.
  now replace (3 * (context profile * 4)) with (12 * context profile) by lia.
Qed.

(** X7. All the requests of a run of [summarize_transcript], whatever its
    outcome, carry the credential of the processor and the model asked
    for, under the summarize or the fix_summary instruction. *)
Theorem requests_addressed (self : TranscriptProcessor) (transcript model : string)
    (w : world) :
  exists new,
    exchanges (snd (summarize_transcript service self transcript model w)) =
      exchanges w ++ new /\
    Forall (fun x => summarize_request self model (fst x)) new.
Proof.
  rewrite summarize_transcript_run.
  destruct (getitem (models self) model) as [e | profile].
  { exists []. cbn. rewrite app_nil_r. now split. }
  destruct (PyFloat.int_mul (context profile * 4) PyFloat.lit_0_6) as [e | threshold].
  { exists []. cbn. rewrite app_nil_r. now split. }
  destruct (calls_all_summary_branch self (context profile * 4) transcript model
              (PyFloat.int_lt (PyStr.len transcript) threshold) w)
    as (new & Hx & HP).
  exists new.
  now destruct (summary_branch service self (context profile * 4) transcript model
                  (PyFloat.int_lt (PyStr.len transcript) threshold) w)
    as [[[| text] | e] w1].
Qed.

(** X9. The direct path, whole: when the transcript is shorter than six
    tenths of the context there is one remote call, with the summarize
    instruction and the transcript, and nothing is printed.  An answer
    that is a text is written to [summary.md] as it is.  An answer without
    content empties [summary.md] and the write raises [TypeError].  A
    failure of the call is raised and nothing is written. *)
Theorem direct_run (self : TranscriptProcessor) (transcript model : string)
    (profile : model_profile) (w : world) :
  models self !! model = Some profile ->
  0 <= context profile < 2 ^ 48 ->
  5 * PyStr.len transcript < 12 * context profile ->
  let rq := request_of self (summarize (instructions self)) transcript model in
  summarize_transcript service self transcript model w =
    match service (exchanges w) rq with
    | inr (PyStr content) =>
        (Returned PyNone,
         {| exchanges := exchanges w ++ [(rq, inr (PyStr content))];
            stdout := stdout w;
            summary_md := Some content |})
    | inr PyNone =>
        (Raised TypeError,
         {| exchanges := exchanges w ++ [(rq, inr PyNone)];
            stdout := stdout w;
            summary_md := Some EmptyString |})
    | inl what =>
        (Raised (RemoteFailure what), after_exchanges w [(rq, inl what)])
    end.
Proof.
  intros Hmodel Hrange Hshort rq.
  rewrite (summarize_transcript_by_length _ _ _ profile) by assumption.
  apply Z.ltb_lt in Hshort. rewrite Hshort.
  unfold summary_branch, direct_summary. rewrite model_response_run. cbv zeta.
  fold rq. now destruct (service (exchanges w) rq) as [what | [| content]].
Qed.

End MoreRuns.

(** ** What a chunked run prints, and the run of a middle-sized transcript *)

Lemma print_sizes_world (chunks : list string) :
  forall (start : nat) (w : world),
    for_each (enumerate start chunks)
      (fun (_ : unit) '(i, ch) => print (ChunkSize i (PyStr.len ch))) tt w
    = (Returned tt,
       {| exchanges := exchanges w;
          stdout := stdout w ++ size_notices start chunks;
          summary_md := summary_md w |}).
Proof.
  induction chunks as [|ch chunks IH]; intros start w; cbn [enumerate for_each].
  - unfold size_notices. cbn. rewrite app_nil_r. now destruct w.
  - unfold bind, print at 1. rewrite IH. cbn [exchanges stdout summary_md].
    unfold size_notices. cbn [enumerate map]. now rewrite <- app_assoc.
Qed.

Section Console.

Variable service : list exchange -> request -> response.

Lemma summarize_parts_stdout (self : TranscriptProcessor) (model : string)
    (chunks : list string) :
  forall (start : nat) (acc : list pyval) (w : world) (summaries : list pyval)
         (w1 : world),
    for_each (enumerate start chunks)
      (fun summaries '(i, chunk) =>
         print (SummarizingPart i) ;;
         part_summary <- model_response service self (summarize (instructions self))
                           chunk model ;;
         ret (summaries ++ [part_summary]))
      acc w = (Returned summaries, w1) ->
    stdout w1 = stdout w ++ part_notices start chunks.
Proof.
  induction chunks as [|chunk chunks IH]; intros start acc w summaries w1;
    cbn [enumerate for_each].
  - intros [= <- <-]. unfold part_notices. cbn. now rewrite app_nil_r.
  - unfold bind at 1. unfold bind at 1. unfold print at 1.
    unfold bind at 1. rewrite model_response_run. cbv zeta. cbn [exchanges].
    destruct (service _ _) as [what | content]; [discriminate |].
    unfold ret at 1. intros Hrest. apply IH in Hrest. rewrite Hrest.
    unfold after_exchanges, part_notices. cbn [stdout enumerate map].
    now rewrite <- app_assoc.
Qed.

Lemma chunked_summary_console (self : TranscriptProcessor) (context_length : Z)
    (limit : PyFloat.float) (transcript model : string)
    (w : world) (final : pyval) (w' : world) :
  PyFloat.int_mul context_length PyFloat.lit_0_8 = inr limit ->
  chunked_summary service self context_length transcript model w = (Returned final, w') ->
  exists summaries,
    let chunks := map (PyStr.join ".") (groups limit transcript) in
    List.length summaries = List.length chunks /\
    exchanges w' =
      exchanges w ++ part_exchanges self model chunks summaries ++
      [(request_of self (fix_summary (instructions self))
          (PyStr.join (String newline EmptyString) summaries) model,
        inr final)] /\
    stdout w' =
      stdout w ++ size_notices 0 chunks ++ part_notices 1 chunks ++
      [PartialSummaries (map PyStr summaries)].
Proof.
  intros Hlimit. unfold chunked_summary.
  unfold bind at 1. rewrite (make_chunks_groups _ limit) by assumption.
  set (chunks := map (PyStr.join ".") (groups limit transcript)).
  unfold bind at 1. rewrite print_sizes_world.
  unfold bind at 1.
  destruct (summarize_parts service self model chunks _) as [[summaries | e] w2]
    eqn:Hparts; [| discriminate].
  pose proof Hparts as Hout.
  apply summarize_parts_stdout in Hout.
  apply summarize_parts_returned in Hparts as (parts & Hlen & Hsum & Hx & _).
  cbn [app] in Hsum. subst summaries. cbn [exchanges stdout] in Hx, Hout.
  unfold bind at 1, print at 1. unfold bind at 1.
  destruct (join_items (String newline EmptyString) parts) as [e | joined] eqn:Hjoin;
    [discriminate |].
  apply join_items_inr in Hjoin as (strings & -> & ->).
  rewrite part_answers_strings in Hx. rewrite length_map in Hlen.
  cbn [lift ret]. rewrite model_response_run. cbv zeta. cbn [exchanges].
  destruct (service _ _) as [what | content]; [discriminate |].
  intros [= <- <-]. exists strings. cbv zeta. unfold after_exchanges.
  cbn [exchanges stdout].
  split; [exact Hlen |]. split.
  - rewrite Hx, <- app_assoc. reflexivity.
  - rewrite Hout, <- !app_assoc. reflexivity.
Qed.

(** X10. What a chunked run that returns has printed: the size of each
    chunk, numbered from 0, then the announcement of each part, numbered
    from 1, then the list of the partial summaries. *)
Theorem chunked_run_console (self : TranscriptProcessor) (transcript model : string)
    (profile : model_profile) (w : world) (v : pyval) (w' : world) :
  models self !! model = Some profile ->
  0 <= context profile < 2 ^ 48 ->
  12 * context profile <= 5 * PyStr.len transcript ->
  summarize_transcript service self transcript model w = (Returned v, w') ->
  exists chunks summaries final,
    make_chunks (context profile * 4) transcript w = (Returned chunks, w) /\
    List.length summaries = List.length chunks /\
    exchanges w' =
      exchanges w ++ part_exchanges self model chunks summaries ++
      [(request_of self (fix_summary (instructions self))
          (PyStr.join (String newline EmptyString) summaries) model,
        inr (PyStr final))] /\
    stdout w' =
      stdout w ++ size_notices 0 chunks ++ part_notices 1 chunks ++
      [PartialSummaries (map PyStr summaries)].
Proof.
  intros Hmodel Hrange Hlong.
  rewrite (summarize_transcript_by_length _ _ _ _ profile) by assumption.
  apply Z.ltb_ge in Hlong. rewrite Hlong. unfold summary_branch.
  assert (Hctx : 0 <= context profile * 4 < 2 ^ 50).
  { change (2 ^ 50) with (2 ^ 48 * 4). lia. }
  destruct (int_mul_0_8 _ Hctx) as (limit & Hlimit & _).
  destruct (chunked_summary service self (context profile * 4) transcript model w)
    as [[[| final] | e] w1] eqn:Hrun; try discriminate.
  intros [= <- <-]. cbn [exchanges stdout].
  destruct (chunked_summary_console _ _ limit _ _ _ _ _ Hlimit Hrun)
    as (summaries & Hlen & Hx & Hout).
  exists (map (PyStr.join ".") (groups limit transcript)), summaries, final.
  split; [now apply make_chunks_groups |]. now repeat split.
Qed.

(** X11. A transcript between six and eight tenths of the context is
    summarised whole, and its summary is then put through fix_summary:
    two remote calls, and the answer to the second is in [summary.md]. *)
Theorem middle_sized_run (self : TranscriptProcessor) (transcript model : string)
    (profile : model_profile) (w : world) (v : pyval) (w' : world) :
  models self !! model = Some profile ->
  0 <= context profile < 2 ^ 48 ->
  12 * context profile <= 5 * PyStr.len transcript <= 16 * context profile ->
  summarize_transcript service self transcript model w = (Returned v, w') ->
  exists part final,
    exchanges w' =
      exchanges w ++
      [(request_of self (summarize (instructions self)) transcript model,
        inr (PyStr part));
       (request_of self (fix_summary (instructions self)) part model,
        inr (PyStr final))] /\
    summary_md w' = Some final.
Proof.
  intros Hmodel Hrange [Hlong Hfits].
  rewrite (summarize_transcript_by_length _ _ _ _ profile) by assumption.
  apply Z.ltb_ge in Hlong. rewrite Hlong. unfold summary_branch.
  assert (Hctx : 0 <= context profile * 4 < 2 ^ 50).
  { change (2 ^ 50) with (2 ^ 48 * 4). lia. }
  destruct (int_mul_0_8 _ Hctx) as (limit & Hlimit & Hgt).
  destruct (chunked_summary service self (context profile * 4) transcript model w)
    as [[[| final] | e] w1] eqn:Hrun; try discriminate.
  intros [= <- <-]. cbn [exchanges summary_md].
  destruct (chunked_summary_returned _ _ _ limit _ _ _ _ _ Hlimit Hrun)
    as (summaries & Hlen & Hx & _).
  cbv zeta in Hlen, Hx.
  rewrite (groups_single (context profile * 4)) in Hlen, Hx by (assumption || lia).
  destruct summaries as [|part [|? ?]]; try discriminate Hlen.
  exists part, final. split; [exact Hx | reflexivity].
Qed.

(** X12. An empty transcript is not refused: for a model with a context
    of at least one token it goes the direct way, and the one request
    sent has an empty user text. *)
Theorem empty_transcript_sent (self : TranscriptProcessor) (model : string)
    (profile : model_profile) (w : world) :
  models self !! model = Some profile ->
  0 < context profile < 2 ^ 48 ->
  let rq := request_of self (summarize (instructions self)) EmptyString model in
  exchanges (snd (summarize_transcript service self EmptyString model w)) =
    exchanges w ++ [(rq, service (exchanges w) rq)].
Proof.
  intros Hmodel Hrange rq.
  rewrite (summarize_transcript_by_length _ _ _ _ profile) by (assumption || lia).
  change (PyStr.len EmptyString) with 0.
  destruct (Z.ltb_spec (5 * 0) (12 * context profile)) as [_ | Hle]; [| lia].
  unfold summary_branch, direct_summary. rewrite model_response_run. cbv zeta.
  fold rq. now destruct (service (exchanges w) rq) as [what | [| content]].
Qed.

End Console.

(** ** Titles and heads *)

Lemma take_rest (n : nat) (s : string) :
  exists rest,
    s = (PyStr.take n s ++ rest)%string /\
    String.length rest = (String.length s - n)%nat.
Proof.
  revert s; induction n as [|n IH]; intros s.
  - exists s. destruct s; split; try reflexivity; cbn; lia.
  - destruct s as [|c s]; cbn [PyStr.take].
    + now exists EmptyString.
    + destruct (IH s) as (rest & Hrest & Hlen). exists rest.
      rewrite append_cons, <- Hrest. split; [reflexivity |]. cbn [String.length]. lia.
Qed.

(** X13. A negative [head] does not count from the start: the user text
    is the transcript without its last [- head] characters, and empty
    when the transcript has no more than that. *)
Theorem negative_head (service : list exchange -> request -> response)
    (self : TranscriptProcessor) (transcript : string) (head : Z) (w : world) :
  head < 0 ->
  exists prompt dropped answer,
    transcript = (prompt ++ dropped)%string /\
    String.length dropped = Nat.min (Z.to_nat (- head)) (String.length transcript) /\
    snd (generate_text_name service self transcript head w) =
      after_exchanges w
        [(request_of self name_instructions prompt default_model, answer)].
Proof.
  intros Hneg.
  pose proof (generate_text_name_run service self transcript head w) as Hrun.
  cbv zeta in Hrun. unfold PyStr.slice_to in Hrun.
  destruct (Z.ltb_spec head 0) as [_ | Hge]; [| lia].
  set (n := Z.to_nat (Z.max 0 (PyStr.len transcript + head))) in *.
  destruct (take_rest n transcript) as (dropped & Hsplit & Hlen).
  set (rq := request_of self name_instructions (PyStr.take n transcript) default_model)
    in *.
  exists (PyStr.take n transcript), dropped, (service (exchanges w) rq).
  split; [exact Hsplit |]. split.
  - rewrite Hlen. unfold n, PyStr.len. lia.
  - rewrite Hrun. now destruct (service (exchanges w) rq) as [what | [| content]].
Qed.

Lemma title_of_fixed (text : string) :
  (forall c, In c (list_ascii_of_string text) -> c <> dquote /\ c <> space) ->
  title_of text = text.
Proof.
  unfold title_of. induction text as [|c text IH]; intros Hclean; [reflexivity |].
  cbn [list_ascii_of_string flat_map].
  destruct (Hclean c (or_introl eq_refl)) as [Hq Hs].
  unfold title_char at 1.
  destruct (Ascii.eqb_spec c dquote) as [|_]; [contradiction |].
  destruct (Ascii.eqb_spec c space) as [|_]; [contradiction |].
  cbn [app string_of_list_ascii]. rewrite IH; [reflexivity |].
  intros c' Hin. apply Hclean. now right.
Qed.

(** X14. Formatting a title that has been formatted changes nothing. *)
Theorem title_formatting_idempotent (text : string) :
  let once := PyStr.replace space "_" (PyStr.replace dquote EmptyString text) in
  PyStr.replace space "_" (PyStr.replace dquote EmptyString once) = once.
Proof.
  cbv zeta. rewrite !replace_title. apply title_of_fixed.
  intros c. apply title_of_clean.
Qed.

Lemma replace_char_length (old new : ascii) (s : string) :
  String.length (PyStr.replace old (String new EmptyString) s) = String.length s.
Proof.
  induction s as [|c s IH]; [reflexivity |]. cbn [PyStr.replace].
  destruct (Ascii.eqb c old);
    [change (String new EmptyString ++ ?t)%string with (String new t) |];
    cbn [String.length]; now rewrite IH.
Qed.

Lemma remove_char_length (old : ascii) (s : string) :
  (String.length (PyStr.replace old EmptyString s) +
   count_occ Ascii.ascii_dec (list_ascii_of_string s) old)%nat = String.length s.
Proof.
  induction s as [|c s IH]; [reflexivity |].
  cbn [PyStr.replace list_ascii_of_string count_occ String.length].
  destruct (Ascii.eqb_spec c old) as [-> | Hne].
  - destruct (Ascii.ascii_dec old old) as [_ | Hne]; [| contradiction].
    change (EmptyString ++ ?t)%string with t. lia.
  - destruct (Ascii.ascii_dec c old) as [Heq | _]; [contradiction |].
    cbn [String.length]. lia.
Qed.

(** X15. A title has one character for each character of the answer
    that is not a double quote. *)
Theorem title_length (text : string) :
  (String.length (PyStr.replace space "_" (PyStr.replace dquote EmptyString text)) +
   count_occ Ascii.ascii_dec (list_ascii_of_string text) dquote)%nat
  = String.length text.
Proof.
  change "_"%string with (String underscore EmptyString).
  rewrite replace_char_length. apply remove_char_length.
Qed.

(** ** Instances *)

Lemma negative_head_witness :
  exists prompt dropped answer,
    "abcdef" = (prompt ++ dropped)%string /\
    String.length dropped = Nat.min (Z.to_nat (- -2)) (String.length "abcdef") /\
    snd (generate_text_name (canned_service [inr (PyStr "T")]) (init None) "abcdef" (-2)
           fresh_world) =
      after_exchanges fresh_world
        [(request_of (init None) name_instructions prompt default_model, answer)].
Proof.
  apply (negative_head (canned_service [inr (PyStr "T")]) (init None) "abcdef" (-2)
           fresh_world).
  lia.
Defined.

Lemma direct_run_witness :
  let service := canned_service [inr (PyStr "note")] in
  let rq := request_of pocket_processor (summarize (instructions pocket_processor))
              "Hi" "pocket" in
  summarize_transcript service pocket_processor "Hi" "pocket" fresh_world =
    match service (exchanges fresh_world) rq with
    | inr (PyStr content) =>
        (Returned PyNone,
         {| exchanges := exchanges fresh_world ++ [(rq, inr (PyStr content))];
            stdout := stdout fresh_world;
            summary_md := Some content |})
    | inr PyNone =>
        (Raised TypeError,
         {| exchanges := exchanges fresh_world ++ [(rq, inr PyNone)];
            stdout := stdout fresh_world;
            summary_md := Some EmptyString |})
    | inl what =>
        (Raised (RemoteFailure what), after_exchanges fresh_world [(rq, inl what)])
    end.
Proof.
  intros service.
  apply (direct_run service pocket_processor "Hi" "pocket" (Profile 2) fresh_world).
  - reflexivity.
  - vm_compute. split; [discriminate | reflexivity].
  - vm_compute. reflexivity.
Defined.

Lemma chunked_run_console_witness :
  let service := canned_service [inr (PyStr "s1"); inr (PyStr "s2"); inr (PyStr "all")] in
  let w' := snd (summarize_transcript service pocket_processor "aaaaaaa.b.c" "pocket"
                   fresh_world) in
  exists chunks summaries final,
    make_chunks (2 * 4) "aaaaaaa.b.c" fresh_world = (Returned chunks, fresh_world) /\
    List.length summaries = List.length chunks /\
    exchanges w' =
      exchanges fresh_world ++ part_exchanges pocket_processor "pocket" chunks summaries ++
      [(request_of pocket_processor (fix_summary (instructions pocket_processor))
          (PyStr.join (String newline EmptyString) summaries) "pocket",
        inr (PyStr final))] /\
    stdout w' =
      stdout fresh_world ++ size_notices 0 chunks ++ part_notices 1 chunks ++
      [PartialSummaries (map PyStr summaries)].
Proof.
  intros service w'.
  apply (chunked_run_console service pocket_processor "aaaaaaa.b.c" "pocket" (Profile 2)
           fresh_world PyNone w').
  - reflexivity.
  - vm_compute. split; [discriminate | reflexivity].
  - vm_compute. discriminate.
  - vm_compute. reflexivity.
Defined.

Lemma middle_sized_run_witness :
  let service := canned_service [inr (PyStr "s1"); inr (PyStr "all")] in
  let w' := snd (summarize_transcript service pocket_processor "ab.cd" "pocket"
                   fresh_world) in
  exists part final,
    exchanges w' =
      exchanges fresh_world ++
      [(request_of pocket_processor (summarize (instructions pocket_processor))
          "ab.cd" "pocket", inr (PyStr part));
       (request_of pocket_processor (fix_summary (instructions pocket_processor))
          part "pocket", inr (PyStr final))] /\
    summary_md w' = Some final.
Proof.
  intros service w'.
  apply (middle_sized_run service pocket_processor "ab.cd" "pocket" (Profile 2)
           fresh_world PyNone w').
  - reflexivity.
  - vm_compute. split; [discriminate | reflexivity].
  - split; vm_compute; discriminate.
  - vm_compute. reflexivity.
Defined.

Lemma empty_transcript_sent_witness :
  let service := canned_service [inr (PyStr "note")] in
  let rq := request_of pocket_processor (summarize (instructions pocket_processor))
              EmptyString "pocket" in
  exchanges (snd (summarize_transcript service pocket_processor EmptyString "pocket"
                    fresh_world)) =
    exchanges fresh_world ++ [(rq, service (exchanges fresh_world) rq)].
Proof.
  intros service.
  apply (empty_transcript_sent service pocket_processor "pocket" (Profile 2) fresh_world).
  - reflexivity.
  - vm_compute. split; reflexivity.
Defined.

(** ** The first chunk, and the table of [__init__] *)





(** X17. With the table [__init__] builds, a transcript goes the direct
    way exactly when it has fewer than 39324 characters for
    ["gpt-3.5-turbo-0125"], and fewer than 307200 for
    ["gpt-4-0125-preview"]. *)
Theorem shipped_thresholds (service : list exchange -> request -> response)
    (key : option string) (transcript : string) (w : world) :
  summarize_transcript service (init key) transcript "gpt-3.5-turbo-0125" w =
    (summary <- summary_branch service (init key) (16385 * 4) transcript
                  "gpt-3.5-turbo-0125" (PyStr.len transcript <? 39324) ;;
     write_summary_md summary ;;
     ret PyNone) w /\
  summarize_transcript service (init key) transcript "gpt-4-0125-preview" w =
    (summary <- summary_branch service (init key) (128000 * 4) transcript
                  "gpt-4-0125-preview" (PyStr.len transcript <? 307200) ;;
     write_summary_md summary ;;
     ret PyNone) w.
Proof.
  split.
  - rewrite (summarize_transcript_by_length service (init key) transcript
               "gpt-3.5-turbo-0125" (Profile 16385) w);
      [| reflexivity | split; [discriminate | reflexivity]].
    cbn [context].
    replace (5 * PyStr.len transcript <? 12 * 16385) with (PyStr.len transcript <? 39324)
      by (destruct (Z.ltb_spec (PyStr.len transcript) 39324),
                   (Z.ltb_spec (5 * PyStr.len transcript) (12 * 16385)); lia).
    unfold bind, write_summary_md, ret.
    now destruct (summary_branch _ _ _ _ _ _ w) as [[[| text] | e] w1].
  - rewrite (summarize_transcript_by_length service (init key) transcript
               "gpt-4-0125-preview" (Profile 128000) w);
      [| reflexivity | split; [discriminate | reflexivity]].
    cbn [context].
    replace (5 * PyStr.len transcript <? 12 * 128000)
      with (PyStr.len transcript <? 307200)
      by (destruct (Z.ltb_spec (PyStr.len transcript) 307200),
                   (Z.ltb_spec (5 * PyStr.len transcript) (12 * 128000)); lia).
    unfold bind, write_summary_md, ret.
    now destruct (summary_branch _ _ _ _ _ _ w) as [[[| text] | e] w1].
Qed.
